(** * Getaround price prediction service: request validation and inference

    A shallow embedding of [api/main.py] (the FastAPI service), of the
    part of [ml/model_training.py] that fixes the shape of the fitted
    pipeline the service loads, and of the delay and prediction tabs of
    [dashboard/app.py], together with the contracts of the libraries
    these files lean on (pydantic, pandas, scikit-learn, FastAPI),
    written out as executable functions. *)

From Stdlib Require Import ZArith String Ascii List Bool Lia.
From Stdlib Require Import Floats.SpecFloat.
From stdpp Require Import base option list gmap strings.

Open Scope string_scope.
Open Scope list_scope.

(** ** Binary64 numbers

    Python's [float] and numpy's [float64] are IEEE 754 binary64 numbers;
    they are modelled by [spec_float] at precision 53 and maximal
    exponent 1024, with round-to-nearest-even arithmetic. *)
Module F64.

Definition float : Type := spec_float.

Definition prec : Z := 53.
Definition emax : Z := 1024.

Definition add : float -> float -> float := SFadd prec emax.
Definition sub : float -> float -> float := SFsub prec emax.
Definition div : float -> float -> float := SFdiv prec emax.
Definition leb : float -> float -> bool := SFleb.
Definition eqb : float -> float -> bool := SFeqb.

Definition zero : float := S754_zero false.
Definition nan : float := S754_nan.

(** [float(z)] for a Python [int]: the nearest binary64 number. *)
Definition of_Z (z : Z) : float := binary_normalize prec emax z 0 false.

Definition one : float := of_Z 1.

Definition of_bool (b : bool) : float := if b then one else zero.

Definition isnan (x : float) : bool :=
  match x with S754_nan => true | _ => false end.

Definition isinf (x : float) : bool :=
  match x with S754_infinity _ => true | _ => false end.

Definition isfinite (x : float) : bool :=
  match x with S754_zero _ | S754_finite _ _ _ => true | _ => false end.

(** [numpy.float32(x)], kept as a binary64 value: [x] rounded to
    precision 24 and maximal exponent 128; a number too large for
    binary32 becomes an infinity. *)
Definition astype_float32 (x : float) : float :=
  match x with
  | S754_finite s m e => binary_normalize 24 128 (cond_Zopp s (Zpos m)) e s
  | _ => x
  end.

(** The binary64 number nearest to [(-1)^neg * m * 10^e]. *)
Definition of_decimal (neg : bool) (m : N) (e : Z) : float :=
  match m with
  | N0 => S754_zero neg
  | Npos p =>
      match e with
      | Zneg k =>
          let '(q, e', l) :=
            SFdiv_core_binary prec emax (Zpos p) 0 (10 ^ Zpos k) 0 in
          binary_round_aux prec emax neg q e' l
      | _ => binary_normalize prec emax (cond_Zopp neg (Zpos p * 10 ^ e)) 0 neg
      end
  end.

End F64.

Abbreviation float := F64.float.

(** ** Float literals in strings

    How the string held by a [float] field is read, as pydantic-core has
    it in lax mode.  A string is the UTF-8 encoding of its text.  It is
    trimmed of white space, the characters with Unicode's White_Space
    property, and read by the grammar of Rust's [f64::from_str]: a sign,
    then [inf], [infinity] or [nan] in any case, or a decimal number of
    ASCII digits with an optional fraction and exponent.  A string that
    does not read so is read once more, untrimmed and with its
    underscores taken out, unless it begins or ends with an underscore,
    or holds two in a row. *)
Module FloatLiteral.

Definition is_digit (c : ascii) : bool :=
  (48 <=? nat_of_ascii c)%nat && (nat_of_ascii c <=? 57)%nat.

Definition digit_value (c : ascii) : N := N.of_nat (nat_of_ascii c - 48).

Definition lower (c : ascii) : ascii :=
  let n := nat_of_ascii c in
  if (65 <=? n)%nat && (n <=? 90)%nat then ascii_of_nat (n + 32) else c.

(** The white space characters, by the bytes of their encodings: U+0009
    to U+000D, U+0020, U+0085, U+00A0, U+1680, U+2000 to U+200A, U+2028,
    U+2029, U+202F, U+205F and U+3000. *)
Definition white_space : list (list ascii) :=
  map (map ascii_of_nat)
      ([ [9]; [10]; [11]; [12]; [13]; [32];
         [194; 133]; [194; 160]; [225; 154; 128] ]
       ++ map (fun k => [226; 128; k]) (seq 128 11)
       ++ [ [226; 128; 168]; [226; 128; 169]; [226; 128; 175];
            [226; 129; 159]; [227; 128; 128] ])%nat.

Fixpoint strip_prefix (p s : list ascii) : option (list ascii) :=
  match p, s with
  | [], _ => Some s
  | a :: p', b :: s' => if Ascii.eqb a b then strip_prefix p' s' else None
  | _ :: _, [] => None
  end.

(** What follows the first of [spaces] that [s] begins with. *)
Fixpoint after_space (spaces : list (list ascii)) (s : list ascii)
  : option (list ascii) :=
  match spaces with
  | [] => None
  | p :: spaces' =>
      match strip_prefix p s with
      | Some r => Some r
      | None => after_space spaces' s
      end
  end.

(** [s] without the [spaces] it begins with; [n] bounds their number. *)
Fixpoint lstrip (spaces : list (list ascii)) (n : nat) (s : list ascii)
  : list ascii :=
  match n with
  | O => s
  | S n' =>
      match after_space spaces s with
      | Some r => lstrip spaces n' r
      | None => s
      end
  end.

(** [str::trim] *)
Definition trim (s : list ascii) : list ascii :=
  let s := lstrip white_space (length s) s in
  rev (lstrip (map (@rev ascii) white_space) (length s) (rev s)).

(** The longest prefix of digits of [s], and what follows it. *)
Fixpoint digitpart (s : list ascii) : list ascii * list ascii :=
  match s with
  | c :: s' =>
      if is_digit c
      then let '(ds, r) := digitpart s' in (c :: ds, r)
      else ([], s)
  | [] => ([], [])
  end.

Definition digits_value (ds : list ascii) : N :=
  fold_left (fun acc c => (10 * acc + digit_value c)%N) ds 0%N.

Definition sign (s : list ascii) : bool * list ascii :=
  match s with
  | c :: s' =>
      if Ascii.eqb c "-" then (true, s')
      else if Ascii.eqb c "+" then (false, s')
      else (false, s)
  | [] => (false, [])
  end.

(** The exponent part: nothing, or [e] or [E], a sign and digits. *)
Definition exponent (s : list ascii) : option Z :=
  match s with
  | [] => Some 0%Z
  | c :: s' =>
      if Ascii.eqb (lower c) "e" then
        let '(neg, s'') := sign s' in
        match digitpart s'' with
        | ([], _) => None
        | (ds, []) => Some (cond_Zopp neg (Z.of_N (digits_value ds)))
        | (_, _ :: _) => None
        end
      else None
  end.

(** A decimal number as a mantissa and a power of ten. *)
Definition decimal (s : list ascii) : option (N * Z) :=
  let '(ip, r1) := digitpart s in
  let '(fp, r2) :=
    match r1 with
    | c :: r => if Ascii.eqb c "." then digitpart r else ([], r1)
    | [] => ([], [])
    end in
  match ip ++ fp with
  | [] => None
  | ds =>
      match exponent r2 with
      | Some e => Some (digits_value ds, (e - Z.of_nat (length fp))%Z)
      | None => None
      end
  end.

(** [f64::from_str] *)
Definition from_str (s : list ascii) : option float :=
  let '(neg, body) := sign s in
  let word := string_of_list_ascii (map lower body) in
  if String.eqb word "inf" || String.eqb word "infinity"
  then Some (S754_infinity neg)
  else if String.eqb word "nan" then Some S754_nan
  else
    match decimal body with
    | Some (m, e) => Some (F64.of_decimal neg m e)
    | None => None
    end.

Definition is_underscore (c : ascii) : bool := Ascii.eqb c "_".

Fixpoint two_in_a_row (s : list ascii) : bool :=
  match s with
  | a :: s' =>
      match s' with
      | b :: _ => (is_underscore a && is_underscore b) || two_in_a_row s'
      | [] => false
      end
  | [] => false
  end.

Definition strip_underscores (s : list ascii) : option (list ascii) :=
  if match s with c :: _ => is_underscore c | [] => false end
     || match rev s with c :: _ => is_underscore c | [] => false end
     || negb (existsb is_underscore s)
     || two_in_a_row s
  then None
  else Some (List.filter (fun c => negb (is_underscore c)) s).

Definition parse (s : string) : option float :=
  let s := list_ascii_of_string s in
  match from_str (trim s) with
  | Some f => Some f
  | None =>
      match strip_underscores s with
      | Some s' => from_str s'
      | None => None
      end
  end.

End FloatLiteral.

(** ** Decoded request bodies

    What [json.loads] hands to the validator: [None], booleans, integers,
    floats, strings, lists and dictionaries keyed by strings. *)
#[warning="-register-all"]
Inductive pyval : Type :=
| PNone
| PBool (b : bool)
| PInt (z : Z)
| PFloat (f : float)
| PStr (s : string)
| PList (l : list pyval)
| PDict (d : gmap string pyval).

(** ** pydantic: validation in lax mode

    Validation errors carry the place of the offending value and their
    kind; the message, the echoed input and the documentation link that
    pydantic adds are functions of these and are left out.  All errors of
    a model are collected, none stops the validation of its siblings. *)
Module Pydantic.

Inductive loc_item : Type :=
| Key (k : string)
| Index (i : nat).

Inductive expected : Type :=
| a_float | a_string | a_bool | a_list | a_dict.

Inductive error_type : Type :=
| missing
| type_mismatch (e : expected).

Record ErrorDetails : Type :=
  { err_type : error_type; loc : list loc_item }.

Inductive validated (A : Type) : Type :=
| Valid (a : A)
| Invalid (errors : list ErrorDetails).
Arguments Valid {A} a.
Arguments Invalid {A} errors.

Definition errors_of {A} (x : validated A) : list ErrorDetails :=
  match x with Valid _ => [] | Invalid es => es end.

(** Applying a validated constructor to a validated field; the errors
    of both sides are kept, in order. *)
Definition ap {A B} (f : validated (A -> B)) (x : validated A)
  : validated B :=
  match f, x with
  | Valid g, Valid a => Valid (g a)
  | Valid _, Invalid es => Invalid es
  | Invalid es, Valid _ => Invalid es
  | Invalid es1, Invalid es2 => Invalid (es1 ++ es2)
  end.

(** [float] fields take floats, integers that fit binary64, booleans
    (read as 0.0 and 1.0) and strings that read as float literals. *)
Definition float_validator (v : pyval) : option float :=
  match v with
  | PFloat f => Some f
  | PInt z =>
      let f := F64.of_Z z in
      if F64.isfinite f then Some f else None
  | PBool b => Some (F64.of_bool b)
  | PStr s => FloatLiteral.parse s
  | _ => None
  end.

(** [str] fields take strings only. *)
Definition str_validator (v : pyval) : option string :=
  match v with
  | PStr s => Some s
  | _ => None
  end.

Definition lowercase (s : string) : string :=
  string_of_list_ascii (map FloatLiteral.lower (list_ascii_of_string s)).

Definition str_as_bool (s : string) : option bool :=
  let w := lowercase s in
  if existsb (String.eqb w) ["0"; "off"; "f"; "false"; "n"; "no"]
  then Some false
  else if existsb (String.eqb w) ["1"; "on"; "t"; "true"; "y"; "yes"]
  then Some true
  else None.

Definition int_as_bool (z : Z) : option bool :=
  match z with
  | 0%Z => Some false
  | 1%Z => Some true
  | _ => None
  end.

(** [bool] fields take booleans, the integers and floats 0 and 1, and
    the usual spellings of yes and no. *)
Definition bool_validator (v : pyval) : option bool :=
  match v with
  | PBool b => Some b
  | PInt z => int_as_bool z
  | PFloat f =>
      if F64.eqb f F64.zero then Some false
      else if F64.eqb f F64.one then Some true
      else None
  | PStr s => str_as_bool s
  | _ => None
  end.

(** One field of a model: looked up by name in the input dictionary,
    then validated; the error is placed at the field. *)
Definition field {A} (validator : pyval -> option A) (e : expected)
    (obj : gmap string pyval) (at_ : list loc_item) (name : string)
  : validated A :=
  match obj !! name with
  | None => Invalid [ {| err_type := missing; loc := at_ ++ [Key name] |} ]
  | Some v =>
      match validator v with
      | Some a => Valid a
      | None =>
          Invalid [ {| err_type := type_mismatch e;
                       loc := at_ ++ [Key name] |} ]
      end
  end.

(** [List[T]]: every item is validated at its index. *)
Fixpoint items {A} (item : list loc_item -> pyval -> validated A)
    (at_ : list loc_item) (i : nat) (l : list pyval)
  : validated (list A) :=
  match l with
  | [] => Valid []
  | v :: l' =>
      ap (ap (Valid cons) (item (at_ ++ [Index i]) v))
         (items item at_ (S i) l')
  end.

End Pydantic.

Import Pydantic.

Notation "f <*> x" := (Pydantic.ap f x) (at level 50, left associativity).

(** ** api/main.py: the request models *)

(** [class CarFeatures(BaseModel)] *)
Record CarFeatures : Type :=
  { mileage : float;
    engine_power : float;
    model_key : string;
    fuel : string;
    paint_color : string;
    car_type : string;
    private_parking_available : bool;
    has_gps : bool;
    has_air_conditioning : bool;
    automatic_car : bool;
    has_getaround_connect : bool;
    has_speed_regulator : bool;
    winter_tires : bool }.

(** [class InputData(BaseModel)] *)
Record InputData : Type :=
  { input : list CarFeatures }.

(** The declared fields of [CarFeatures], in declaration order, with the
    type each is annotated with. *)
Definition CarFeatures_fields : list (string * expected) :=
  [ ("mileage", a_float);
    ("engine_power", a_float);
    ("model_key", a_string);
    ("fuel", a_string);
    ("paint_color", a_string);
    ("car_type", a_string);
    ("private_parking_available", a_bool);
    ("has_gps", a_bool);
    ("has_air_conditioning", a_bool);
    ("automatic_car", a_bool);
    ("has_getaround_connect", a_bool);
    ("has_speed_regulator", a_bool);
    ("winter_tires", a_bool) ].

(** Validation of one [CarFeatures]: the declared fields are read from
    the dictionary, whatever else the dictionary holds is ignored. *)
Definition CarFeatures_validate (at_ : list loc_item) (v : pyval)
  : validated CarFeatures :=
  match v with
  | PDict obj =>
      Valid Build_CarFeatures
        <*> field float_validator a_float obj at_ "mileage"
        <*> field float_validator a_float obj at_ "engine_power"
        <*> field str_validator a_string obj at_ "model_key"
        <*> field str_validator a_string obj at_ "fuel"
        <*> field str_validator a_string obj at_ "paint_color"
        <*> field str_validator a_string obj at_ "car_type"
        <*> field bool_validator a_bool obj at_ "private_parking_available"
        <*> field bool_validator a_bool obj at_ "has_gps"
        <*> field bool_validator a_bool obj at_ "has_air_conditioning"
        <*> field bool_validator a_bool obj at_ "automatic_car"
        <*> field bool_validator a_bool obj at_ "has_getaround_connect"
        <*> field bool_validator a_bool obj at_ "has_speed_regulator"
        <*> field bool_validator a_bool obj at_ "winter_tires"
  | _ => Invalid [ {| err_type := type_mismatch a_dict; loc := at_ |} ]
  end.

(** Validation of the body of [POST /predict] as [InputData]; FastAPI
    places the errors under ["body"]. *)
Definition InputData_validate (body : pyval) : validated InputData :=
  match body with
  | PDict obj =>
      match obj !! "input" with
      | None =>
          Invalid [ {| err_type := missing; loc := [Key "body"; Key "input"] |} ]
      | Some (PList l) =>
          Valid Build_InputData
            <*> items CarFeatures_validate [Key "body"; Key "input"] 0 l
      | Some _ =>
          Invalid [ {| err_type := type_mismatch a_list;
                       loc := [Key "body"; Key "input"] |} ]
      end
  | _ => Invalid [ {| err_type := type_mismatch a_dict; loc := [Key "body"] |} ]
  end.

(** The values a validated record holds. *)
Inductive value : Type :=
| VFloat (f : float)
| VStr (s : string)
| VBool (b : bool).

(** [item.dict()]: the fields of the record, in declaration order. *)
Definition CarFeatures_dict (item : CarFeatures) : list (string * value) :=
  [ ("mileage", VFloat (mileage item));
    ("engine_power", VFloat (engine_power item));
    ("model_key", VStr (model_key item));
    ("fuel", VStr (fuel item));
    ("paint_color", VStr (paint_color item));
    ("car_type", VStr (car_type item));
    ("private_parking_available", VBool (private_parking_available item));
    ("has_gps", VBool (has_gps item));
    ("has_air_conditioning", VBool (has_air_conditioning item));
    ("automatic_car", VBool (automatic_car item));
    ("has_getaround_connect", VBool (has_getaround_connect item));
    ("has_speed_regulator", VBool (has_speed_regulator item));
    ("winter_tires", VBool (winter_tires item)) ].

(** ** pandas: frames

    A frame is a list of column labels and the rows under them; every row
    has one value per label. *)
Module Pandas.

Inductive dtype : Type :=
| float64 | int64 | bool_ | object.

Record DataFrame : Type :=
  { columns : list string; values : list (list value) }.

Definition mem (k : string) (ks : list string) : bool :=
  existsb (String.eqb k) ks.

(** The keys of the dictionaries, each once, in the order in which they
    first appear. *)
Definition keys_in_order (data : list (list (string * value)))
  : list string :=
  fold_left
    (fun acc d =>
       fold_left (fun acc k => if mem k acc then acc else acc ++ [k])
                 (map fst d) acc)
    data [].

Fixpoint get (d : list (string * value)) (k : string) : value :=
  match d with
  | (k', v) :: d' => if String.eqb k k' then v else get d' k
  | [] => VFloat F64.nan
  end.

(** [pd.DataFrame(data)] for a list of dictionaries: one row per
    dictionary, one column per key, a key that a dictionary lacks
    reads as NaN.  The empty list gives the frame with no row and no
    column. *)
Definition DataFrame_from_records (data : list (list (string * value)))
  : DataFrame :=
  let keys := keys_in_order data in
  {| columns := keys; values := map (fun d => map (get d) keys) data |}.

Definition is_float (v : value) : bool :=
  match v with VFloat _ => true | _ => false end.

Definition is_bool (v : value) : bool :=
  match v with VBool _ => true | _ => false end.

(** The type pandas gives a column of Python values. *)
Definition infer_dtype (col : list value) : dtype :=
  match col with
  | [] => object
  | _ =>
      if forallb is_float col then float64
      else if forallb is_bool col then bool_
      else object
  end.

Definition column (df : DataFrame) (j : nat) : list value :=
  map (fun row => nth j row (VFloat F64.nan)) (values df).

Definition dtypes (df : DataFrame) : list (string * dtype) :=
  imap (fun j c => (c, infer_dtype (column df j))) (columns df).

Fixpoint index_of (c : string) (cols : list string) : option nat :=
  match cols with
  | [] => None
  | c' :: cols' =>
      if String.eqb c c' then Some 0%nat else S <$> index_of c cols'
  end.

(** [df[names]]: the rows restricted to the named columns, in the order
    of [names]; [None] when a name is not a column. *)
Definition getitem (df : DataFrame) (names : list string)
  : option (list (list value)) :=
  js ← mapM (fun c => index_of c (columns df)) names;
  Some (map (fun row => map (fun j => nth j row (VFloat F64.nan)) js)
            (values df)).

End Pandas.

Import Pandas.

(** ** scikit-learn: the fitted estimators and their [transform] and
    [predict] *)
Module Sklearn.

Inductive ValueError : Type :=
| columns_are_missing
| could_not_convert_to_float
| input_contains_infinity_or_NaN
| found_array_with_0_samples
| n_features_mismatch
| found_unknown_categories.

Inductive outcome (A : Type) : Type :=
| Returns (a : A)
| Raises (e : ValueError).
Arguments Returns {A} a.
Arguments Raises {A} e.

Definition bind {A B} (x : outcome A) (k : A -> outcome B) : outcome B :=
  match x with
  | Returns a => k a
  | Raises e => Raises e
  end.

Fixpoint traverse {A B} (f : A -> outcome B) (l : list A)
  : outcome (list B) :=
  match l with
  | [] => Returns []
  | a :: l' =>
      bind (f a) (fun b => bind (traverse f l') (fun bs => Returns (b :: bs)))
  end.

(** A two-dimensional array of binary64 numbers, row by row. *)
Definition ndarray : Type := list (list float).

(** One cell as a binary64 number.  The cells that reach the pipelines
    of the training script are floats and booleans; a string is read as
    [FloatLiteral.parse] reads it, which is how numpy reads ASCII text
    without underscores. *)
Definition to_float (v : value) : outcome float :=
  match v with
  | VFloat f => Returns f
  | VBool b => Returns (F64.of_bool b)
  | VStr s =>
      match FloatLiteral.parse s with
      | Some f => Returns f
      | None => Raises could_not_convert_to_float
      end
  end.

(** [np.asarray(X, dtype=float64)] *)
Definition asarray (X : list (list value)) : outcome ndarray :=
  traverse (traverse to_float) X.

Definition acceptable (allow_nan : bool) (x : float) : bool :=
  F64.isfinite x || (allow_nan && F64.isnan x).

(** [check_array]: no infinity (and no NaN unless allowed), at least
    one sample. *)
Definition check_array (allow_nan : bool) (X : ndarray) : outcome ndarray :=
  if negb (forallb (forallb (acceptable allow_nan)) X)
  then Raises input_contains_infinity_or_NaN
  else
    match X with
    | [] => Raises found_array_with_0_samples
    | _ => Returns X
    end.

Definition check_n_features {A} (n : nat) (X : list (list A))
  : outcome (list (list A)) :=
  if forallb (fun row => (length row =? n)%nat) X
  then Returns X else Raises n_features_mismatch.

(** *** StandardScaler *)
Definition standardize (mean_ scale_ : list float) (row : list float)
  : list float :=
  zip_with (fun x ms => F64.div (F64.sub x (fst ms)) (snd ms))
           row (zip mean_ scale_).

Definition StandardScaler_transform (mean_ scale_ : list float)
    (X : list (list value)) : outcome ndarray :=
  bind (asarray X) (fun X =>
  bind (check_array true X) (fun X =>
  bind (check_n_features (length mean_) X) (fun X =>
  Returns (map (standardize mean_ scale_) X)))).

(** *** OneHotEncoder *)
Inductive handle_unknown_t : Type :=
| error
| ignore.

(** The indicators of one value against the categories learnt for its
    column: a single one at the index of the value, or no one at all
    when the value is not among them. *)
Definition indicators (cats : list string) (v : value) : option (list float) :=
  let zeros := replicate (length cats) F64.zero in
  match v with
  | VStr s =>
      match index_of s cats with
      | Some i => Some (<[ i := F64.one ]> zeros)
      | None => None
      end
  | _ => None
  end.

Definition encode (handle_unknown : handle_unknown_t)
    (cats : list string) (v : value) : outcome (list float) :=
  match indicators cats v with
  | Some row => Returns row
  | None =>
      match handle_unknown with
      | ignore => Returns (replicate (length cats) F64.zero)
      | error => Raises found_unknown_categories
      end
  end.

Definition encode_row (handle_unknown : handle_unknown_t)
    (categories_ : list (list string)) (row : list value)
  : outcome (list float) :=
  bind (traverse (fun cv => encode handle_unknown (fst cv) (snd cv))
                 (zip categories_ row))
       (fun blocks => Returns (concat blocks)).

Definition OneHotEncoder_transform (handle_unknown : handle_unknown_t)
    (categories_ : list (list string)) (X : list (list value))
  : outcome ndarray :=
  match X with
  | [] => Raises found_array_with_0_samples
  | _ =>
      bind (check_n_features (length categories_) X) (fun X =>
      traverse (encode_row handle_unknown categories_) X)
  end.

(** *** ColumnTransformer *)
Inductive transformer : Type :=
| StandardScaler (mean_ scale_ : list float)
| OneHotEncoder (handle_unknown : handle_unknown_t)
                (categories_ : list (list string)).

Definition transform (t : transformer) (X : list (list value))
  : outcome ndarray :=
  match t with
  | StandardScaler mean_ scale_ => StandardScaler_transform mean_ scale_ X
  | OneHotEncoder h categories_ => OneHotEncoder_transform h categories_ X
  end.

Inductive remainder_t : Type :=
| drop
| passthrough.

Record ColumnTransformer : Type :=
  { transformers : list (string * transformer * list string);
    remainder : remainder_t;
    feature_names_in_ : list string }.

Definition transformed_columns (ct : ColumnTransformer) : list string :=
  concat (map snd (transformers ct)).

(** The columns seen at fit time that no transformer takes. *)
Definition remainder_columns (ct : ColumnTransformer) : list string :=
  filter (fun c => negb (mem c (transformed_columns ct)))
         (feature_names_in_ ct).

Definition used_columns (ct : ColumnTransformer) : list string :=
  transformed_columns ct ++
  match remainder ct with
  | passthrough => remainder_columns ct
  | drop => []
  end.

(** [np.hstack]: the rows of the blocks, side by side. *)
Definition hstack (Xs : list ndarray) : ndarray :=
  match Xs with
  | [] => []
  | X :: Xs' => fold_left (zip_with app) Xs' X
  end.

Definition select (X : DataFrame) (names : list string)
  : outcome (list (list value)) :=
  match getitem X names with
  | Some rows => Returns rows
  | None => Raises columns_are_missing
  end.

(** [ColumnTransformer.transform] on a frame: the columns are found by
    their labels, wherever they stand in the frame. *)
Definition ColumnTransformer_transform (ct : ColumnTransformer)
    (X : DataFrame) : outcome ndarray :=
  if negb (forallb (fun c => mem c (columns X)) (used_columns ct))
  then Raises columns_are_missing
  else
    bind (traverse (fun t => bind (select X (snd t)) (transform (snd (fst t))))
                   (transformers ct)) (fun Xs =>
    bind (match remainder ct with
          | passthrough =>
              bind (select X (remainder_columns ct)) (fun R =>
              bind (asarray R) (fun R => Returns [R]))
          | drop => Returns []
          end) (fun R =>
    Returns (hstack (Xs ++ R)))).

(** *** Regression trees and forests *)
Inductive tree : Type :=
| Leaf (prediction : float)
| Node (feature : nat) (threshold : float) (missing_go_to_left : bool)
       (children_left children_right : tree).

Fixpoint tree_predict (t : tree) (x : list float) : float :=
  match t with
  | Leaf prediction => prediction
  | Node feature threshold missing_go_to_left children_left children_right =>
      let xi := nth feature x F64.zero in
      if F64.isnan xi
      then if missing_go_to_left
           then tree_predict children_left x
           else tree_predict children_right x
      else if F64.leb xi threshold
           then tree_predict children_left x
           else tree_predict children_right x
  end.

Record RandomForestRegressor : Type :=
  { n_estimators : nat;
    estimators_ : list tree;
    allow_nan : bool }.

(** The mean of the trees' predictions, summed in the order of the
    trees. *)
Definition forest_mean (trees : list tree) (x : list float) : float :=
  F64.div (fold_left (fun acc t => F64.add acc (tree_predict t x))
                     trees F64.zero)
          (F64.of_Z (Z.of_nat (length trees))).

(** [RandomForestRegressor.predict]: the input is converted to
    binary32 and checked, then every row goes down every tree. *)
Definition RandomForestRegressor_predict (rf : RandomForestRegressor)
    (X : ndarray) : outcome (list float) :=
  bind (check_array (allow_nan rf) (map (map F64.astype_float32) X))
       (fun X32 => Returns (map (forest_mean (estimators_ rf)) X32)).

(** *** Pipeline *)
Record Pipeline : Type :=
  { steps_preprocessor : ColumnTransformer;
    steps_model : RandomForestRegressor }.

Definition Pipeline_predict (p : Pipeline) (X : DataFrame)
  : outcome (list float) :=
  bind (ColumnTransformer_transform (steps_preprocessor p) X)
       (RandomForestRegressor_predict (steps_model p)).

End Sklearn.

Import Sklearn.

(** ** ml/model_training.py: the table and the pipeline *)
Module Training.

Definition dtype_eqb (a b : dtype) : bool :=
  match a, b with
  | float64, float64 | int64, int64 | bool_, bool_ | object, object => true
  | _, _ => false
  end.

(** The labels and types of the columns of a table. *)
Definition schema : Type := list (string * dtype).

(** [df.drop(columns=names, errors="ignore")] *)
Definition drop_columns (names : list string) (t : schema) : schema :=
  filter (fun c => negb (mem (fst c) names)) t.

(** [t[name] = t[name].astype(d)] *)
Definition astype (name : string) (d : dtype) (t : schema) : schema :=
  map (fun c => if String.eqb (fst c) name then (fst c, d) else c) t.

(** [t.select_dtypes(d)] *)
Definition select_dtypes (d : dtype) (t : schema) : schema :=
  filter (fun c => dtype_eqb (snd c) d) t.

Definition TARGET : string := "rental_price_per_day".

(** Modelled from the spec: the table read from
    [data/get_around_pricing_project.csv], a file that is not among the
    sources.  Its columns are the thirteen fields of the feature schema
    and the target: two numeric columns (read as integers, the script
    converts them), four columns of strings, seven of booleans, and the
    daily price.  The order of the columns in the file is not known;
    they stand here in the order of the schema.  The pipeline finds its
    columns by their labels, and of this order it keeps only the order
    of the flags among themselves, which is that of the columns it
    passes through to the forest. *)
Definition df : schema :=
  [ ("mileage", int64);
    ("engine_power", int64);
    ("model_key", object);
    ("fuel", object);
    ("paint_color", object);
    ("car_type", object);
    ("private_parking_available", bool_);
    ("has_gps", bool_);
    ("has_air_conditioning", bool_);
    ("automatic_car", bool_);
    ("has_getaround_connect", bool_);
    ("has_speed_regulator", bool_);
    ("winter_tires", bool_);
    (TARGET, int64) ].

(** The features: the table without the index column and the target,
    its two numeric columns converted to floats. *)
Definition X : schema :=
  astype "engine_power" float64
    (astype "mileage" float64
       (drop_columns [TARGET] (drop_columns ["Unnamed: 0"] df))).

Definition numeric_features : list string := ["mileage"; "engine_power"].

Definition categorical_features : list string :=
  ["model_key"; "fuel"; "paint_color"; "car_type"].

Definition boolean_features : list string :=
  map fst (select_dtypes bool_ X).

(** What [pipeline.fit] learns from the data: the means and scales of
    the numeric columns, the categories of the categorical columns and
    the trees of the forest, with the forest's tolerance of NaN. *)
Record Fitted : Type :=
  { scaler_mean : list float;
    scaler_scale : list float;
    encoder_categories : list (list string);
    forest_estimators : list tree;
    forest_allow_nan : bool }.

Definition preprocessor (fit : Fitted) : ColumnTransformer :=
  {| transformers :=
       [ ("num", StandardScaler (scaler_mean fit) (scaler_scale fit),
          numeric_features);
         ("cat", OneHotEncoder ignore (encoder_categories fit),
          categorical_features) ];
     remainder := passthrough;
     feature_names_in_ := map fst X |}.

Definition pipeline (fit : Fitted) : Pipeline :=
  {| steps_preprocessor := preprocessor fit;
     steps_model :=
       {| n_estimators := 100;
          estimators_ := forest_estimators fit;
          allow_nan := forest_allow_nan fit |} |}.

(** [joblib.dump(pipeline, "model/model.joblib")] *)
Definition dump (fit : Fitted) (files : gmap string Pipeline)
  : gmap string Pipeline :=
  <[ "model/model.joblib" := pipeline fit ]> files.

End Training.

(** ** api/main.py: the service *)

(** What the process does that a caller cannot see in a response: the
    loads of the model file and the calls of the model's [predict]. *)
Inductive event : Type :=
| Loaded (path : string)
| Predicted (X : DataFrame).

(** The state of the process: the module-level [model] and the events so
    far. *)
Record process : Type :=
  { model : Pipeline; log : list event }.

(** Code that runs in the process: it reads and may change the state, and
    it returns or raises. *)
Definition handler (A : Type) : Type := process -> outcome A * process.

Definition ret {A} (a : A) : handler A := fun s => (Returns a, s).

Definition and_then {A B} (m : handler A) (k : A -> handler B) : handler B :=
  fun s =>
    match m s with
    | (Returns a, s') => k a s'
    | (Raises e, s') => (Raises e, s')
    end.

Notation "'let*' x ':=' m 'in' k" := (and_then m (fun x => k))
  (at level 10, x name, m at level 100, k at level 200).

(** [model.predict(X)] on the module-level model. *)
Definition model_predict (X : DataFrame) : handler (list float) :=
  fun s =>
    (Pipeline_predict (model s) X,
     {| model := model s; log := log s ++ [Predicted X] |}).

(** [def predict(data: InputData)]; the list it returns is the value of
    ["prediction"] in the answer. *)
Definition predict (data : InputData) : handler (list float) :=
  let input_dicts := map CarFeatures_dict (input data) in
  let df := DataFrame_from_records input_dicts in
  let* predictions := model_predict df in
  ret predictions.

Inductive content : Type :=
| Prediction (prediction : list float)
| Detail (detail : list ErrorDetails)
| Page
| InternalServerError.

Record Response : Type :=
  { status_code : nat; body : content }.

(** [model = joblib.load("model/model.joblib")], run once when the module
    is imported; without the file the process does not start. *)
Definition startup (files : gmap string Pipeline) : option process :=
  m ← files !! "model/model.joblib";
  Some {| model := m; log := [Loaded "model/model.joblib"] |}.

(** FastAPI around [predict]: the body is validated first and an invalid
    one is answered 422 without calling the function; an exception in the
    function is answered 500; so is a result that JSON cannot carry, a
    float that is not finite. *)
Definition post_predict (payload : pyval) (s : process)
  : Response * process :=
  match InputData_validate payload with
  | Invalid es => ({| status_code := 422; body := Detail es |}, s)
  | Valid data =>
      match predict data s with
      | (Returns prediction, s') =>
          if forallb F64.isfinite prediction
          then ({| status_code := 200; body := Prediction prediction |}, s')
          else ({| status_code := 500; body := InternalServerError |}, s')
      | (Raises _, s') =>
          ({| status_code := 500; body := InternalServerError |}, s')
      end
  end.

Inductive request : Type :=
| GET_root
| GET_docs
| POST_predict (payload : pyval).

(** [root] and the documentation route return fixed pages. *)
Definition handle (r : request) (s : process) : Response * process :=
  match r with
  | GET_root => ({| status_code := 200; body := Page |}, s)
  | GET_docs => ({| status_code := 200; body := Page |}, s)
  | POST_predict payload => post_predict payload s
  end.

(** The requests of a run, answered one after the other. *)
Fixpoint serve (rs : list request) (s : process)
  : list Response * process :=
  match rs with
  | [] => ([], s)
  | r :: rs' =>
      let '(a, s') := handle r s in
      let '(answers, s'') := serve rs' s' in
      (a :: answers, s'')
  end.

(** ** Sample data *)
Module Sample.

Import Training.

Definition split_mileage : tree :=
  Node 0 F64.zero true (Leaf (F64.of_Z 120)) (Leaf (F64.of_Z 90)).

Definition split_citroen : tree :=
  Node 4 (F64.of_decimal false 5 (-1)) true
       (Leaf (F64.of_Z 100)) (Leaf (F64.of_Z 110)).

Definition fit : Fitted :=
  {| scaler_mean := [F64.of_Z 140000; F64.of_Z 130];
     scaler_scale := [F64.of_Z 60000; F64.of_Z 40];
     encoder_categories :=
       [ ["Audi"; "BMW"; "Citroën"; "Peugeot"; "Renault"];
         ["diesel"; "petrol"];
         ["black"; "grey"; "white"];
         ["estate"; "sedan"; "suv"] ];
     forest_estimators :=
       replicate 50 split_mileage ++ replicate 50 split_citroen;
     forest_allow_nan := true |}.

Definition files : gmap string Pipeline := dump fit ∅.

Definition started : process :=
  {| model := pipeline fit; log := [Loaded "model/model.joblib"] |}.

(** The record of the documentation's example request. *)
Definition car : gmap string pyval :=
  list_to_map
    [ ("mileage", PFloat (F64.of_Z 7));
      ("engine_power", PFloat (F64.of_decimal false 27 (-2)));
      ("model_key", PStr "Citroën");
      ("fuel", PStr "diesel");
      ("paint_color", PStr "black");
      ("car_type", PStr "sedan");
      ("private_parking_available", PBool true);
      ("has_gps", PBool true);
      ("has_air_conditioning", PBool false);
      ("automatic_car", PBool false);
      ("has_getaround_connect", PBool true);
      ("has_speed_regulator", PBool false);
      ("winter_tires", PBool true) ].

Definition payload (records : list pyval) : pyval :=
  PDict {[ "input" := PList records ]}.

End Sample.

(** ** Notions used in the statements and in the proofs *)

(** The frame [predict] builds from the validated records. *)
Definition frame (records : list CarFeatures) : DataFrame :=
  DataFrame_from_records (map CarFeatures_dict records).

(** The values of a record, in the order of its fields. *)
Definition row (r : CarFeatures) : list value :=
  map snd (CarFeatures_dict r).

(** The names of the declared fields. *)
Definition labels : list string := map fst CarFeatures_fields.

(** The numeric, categorical and boolean values of a record, as the
    preprocessor picks them from the frame. *)
Definition numeric (r : CarFeatures) : list float :=
  [mileage r; engine_power r].

Definition categorical (r : CarFeatures) : list value :=
  [VStr (model_key r); VStr (fuel r); VStr (paint_color r); VStr (car_type r)].

Definition flags (r : CarFeatures) : list bool :=
  [private_parking_available r; has_gps r; has_air_conditioning r;
   automatic_car r; has_getaround_connect r; has_speed_regulator r;
   winter_tires r].

(** The indicators written for a value when unknown values are ignored. *)
Definition onehot (cats : list string) (v : value) : list float :=
  default (replicate (length cats) F64.zero) (indicators cats v).

(** The row the preprocessor makes of a record: the scaled numeric
    values, the indicators of the categorical values, the flags. *)
Definition encoded (fit : Training.Fitted) (r : CarFeatures) : list float :=
  (standardize (Training.scaler_mean fit) (Training.scaler_scale fit) (numeric r)
   ++ concat (map (fun cv => onehot (fst cv) (snd cv))
                  (zip (Training.encoder_categories fit) (categorical r))))
  ++ map F64.of_bool (flags r).

(** Whether no step of the pipeline raises on a record: no infinity among
    its numeric values, a scaler fitted on two columns and an encoder
    fitted on four, and an encoded row that the forest's input check lets
    through once converted to binary32. *)
Definition accepted (fit : Training.Fitted) (r : CarFeatures) : bool :=
  forallb (acceptable true) (numeric r)
  && (length (Training.scaler_mean fit) =? 2)%nat
  && (length (Training.encoder_categories fit) =? 4)%nat
  && forallb (acceptable (Training.forest_allow_nan fit))
             (map F64.astype_float32 (encoded fit r)).

(** The forest's prediction for a record. *)
Definition price (fit : Training.Fitted) (r : CarFeatures) : float :=
  forest_mean (Training.forest_estimators fit)
              (map F64.astype_float32 (encoded fit r)).

(** The value of a call that returns. *)
Definition returned {A} (o : outcome A) : option A :=
  match o with Returns a => Some a | Raises _ => None end.

(** Two validations that succeed together, with the same value. *)
Definition agree {A} (x y : validated A) : Prop :=
  match x, y with
  | Valid a, Valid b => a = b
  | Invalid _, Invalid _ => True
  | _, _ => False
  end.

(** Whether a record gets a prediction that JSON can carry. *)
Definition scored (fit : Training.Fitted) (r : CarFeatures) : bool :=
  accepted fit r && F64.isfinite (price fit r).

(** The two answers of [predict] once the body is valid. *)
Definition answer_200 (prediction : list float) : Response :=
  {| status_code := 200; body := Prediction prediction |}.

Definition answer_500 : Response :=
  {| status_code := 500; body := InternalServerError |}.

(** The events that are calls of the model. *)
Definition is_Predicted (e : event) : Prop :=
  match e with Predicted _ => True | Loaded _ => False end.

(** [pd.DataFrame([])] *)
Definition empty_frame : DataFrame := {| columns := []; values := [] |}.

(** Comparisons of literal field names are computed. *)
Ltac decide_names :=
  repeat match goal with
         | |- context [String.eqb ?a ?b] =>
             let r := eval vm_compute in (String.eqb a b) in
             change (String.eqb a b) with r
         end;
  cbv iota.

(** The entries of a dictionary whose key is a declared field, and a
    record stripped of its other entries. *)
Definition declared (kv : string * pyval) : Prop :=
  Is_true (mem (fst kv) (map fst CarFeatures_fields)).

Definition without_extras (v : pyval) : pyval :=
  match v with
  | PDict d => PDict (filter declared d)
  | _ => v
  end.

(** The record with one of its categorical fields replaced. *)
Definition with_category (name v : string) (r : CarFeatures) : CarFeatures :=
  {| mileage := mileage r;
     engine_power := engine_power r;
     model_key := if String.eqb name "model_key" then v else model_key r;
     fuel := if String.eqb name "fuel" then v else fuel r;
     paint_color := if String.eqb name "paint_color" then v else paint_color r;
     car_type := if String.eqb name "car_type" then v else car_type r;
     private_parking_available := private_parking_available r;
     has_gps := has_gps r;
     has_air_conditioning := has_air_conditioning r;
     automatic_car := automatic_car r;
     has_getaround_connect := has_getaround_connect r;
     has_speed_regulator := has_speed_regulator r;
     winter_tires := winter_tires r |}.

(** The categories the encoder learnt for a categorical column. *)
Definition vocabulary (fit : Training.Fitted) (name : string) : list string :=
  match index_of name Training.categorical_features with
  | Some j => nth j (Training.encoder_categories fit) []
  | None => []
  end.

(** The calls of the model a request causes: one, on the frame of its
    records, when it is a prediction request with a valid body; none
    otherwise. *)
Definition calls_of (r : request) : list event :=
  match r with
  | POST_predict payload =>
      match InputData_validate payload with
      | Valid data =>
          [Predicted (DataFrame_from_records
                        (map CarFeatures_dict (input data)))]
      | Invalid _ => []
      end
  | _ => []
  end.

(** Whether the validator of a field of the given type takes a value. *)
Definition takes (e : expected) (v : pyval) : bool :=
  match e with
  | a_float => match float_validator v with Some _ => true | None => false end
  | a_string => match str_validator v with Some _ => true | None => false end
  | a_bool => match bool_validator v with Some _ => true | None => false end
  | a_list | a_dict => false
  end.

(** What is wrong with a record standing at [at_]: it is no dictionary, or
    one of the declared fields is missing from it, or holds a value the
    field's validator does not take. *)
Definition flaw (at_ : list loc_item) (v : pyval) (e : ErrorDetails) : Prop :=
  match v with
  | PDict obj =>
      exists name ty,
        (name, ty) ∈ CarFeatures_fields
        /\ loc e = at_ ++ [Key name]
        /\ ((obj !! name = None /\ err_type e = missing)
            \/ (exists x, obj !! name = Some x /\ takes ty x = false
                          /\ err_type e = type_mismatch ty))
  | _ => e = {| err_type := type_mismatch a_dict; loc := at_ |}
  end.

(** ** dashboard/app.py: the price prediction tab *)
Module Dashboard.

(** The values of the widgets of the form. *)
Record form : Type :=
  { mileage : float;
    engine_power : float;
    model_key : string;
    fuel : string;
    paint_color : string;
    car_type : string;
    private_parking_available : bool;
    has_gps : bool;
    has_air_conditioning : bool;
    automatic_car : bool;
    has_getaround_connect : bool;
    has_speed_regulator : bool;
    winter_tires : bool }.

(** What the two number inputs let through: finite numbers, not below
    their [min_value] of 0.0. *)
Definition number_input (x : float) : bool :=
  F64.isfinite x && F64.leb F64.zero x.

Definition entered (f : form) : bool :=
  number_input (mileage f) && number_input (engine_power f).

(** [input_data], the dictionary made of the form once it is submitted. *)
Definition input_data (f : form) : list (string * value) :=
  [ ("mileage", VFloat (mileage f));
    ("engine_power", VFloat (engine_power f));
    ("model_key", VStr (model_key f));
    ("fuel", VStr (fuel f));
    ("paint_color", VStr (paint_color f));
    ("car_type", VStr (car_type f));
    ("private_parking_available", VBool (private_parking_available f));
    ("has_gps", VBool (has_gps f));
    ("has_air_conditioning", VBool (has_air_conditioning f));
    ("automatic_car", VBool (automatic_car f));
    ("has_getaround_connect", VBool (has_getaround_connect f));
    ("has_speed_regulator", VBool (has_speed_regulator f));
    ("winter_tires", VBool (winter_tires f)) ].

(** A value as it reaches the service once sent as JSON and decoded; a
    finite float, a string or a boolean comes out as it went in. *)
Definition sent (v : value) : pyval :=
  match v with
  | VFloat x => PFloat x
  | VStr s => PStr s
  | VBool b => PBool b
  end.

Definition sent_dict (d : list (string * value)) : pyval :=
  PDict (list_to_map (map (fun kv => (fst kv, sent (snd kv))) d)).

(** The body of [requests.post(api_url, json={"input": [input_data]})]. *)
Definition request_json (f : form) : pyval :=
  PDict {[ "input" := PList [sent_dict (input_data f)] ]}.

(** What the tab shows for an answer: the price, the status of an answer
    that is not 200, or the error met on the way. *)
Inductive shown : Type :=
| success (prediction : float)
| api_error (status : nat)
| call_error.

(** [response.json()["prediction"][0]] when the status is 200. *)
Definition show (response : Response) : shown :=
  if (status_code response =? 200)%nat
  then match body response with
       | Prediction (p :: _) => success p
       | _ => call_error
       end
  else api_error (status_code response).

(** The record the service reads from the form's request. *)
Definition features (f : form) : CarFeatures :=
  Build_CarFeatures
    (mileage f) (engine_power f) (model_key f) (fuel f) (paint_color f)
    (car_type f) (private_parking_available f) (has_gps f)
    (has_air_conditioning f) (automatic_car f) (has_getaround_connect f)
    (has_speed_regulator f) (winter_tires f).

End Dashboard.

(** ** api/main.py: what [custom_docs] says of a car *)
Module Docs.

(** The ["properties"] of a car object: the name of each, its ["type"]
    and its ["example"]. *)
Definition properties : list (string * (string * pyval)) :=
  [ ("mileage", ("float", PFloat (F64.of_Z 7)));
    ("engine_power", ("float", PFloat (F64.of_decimal false 27 (-2))));
    ("model_key", ("string", PStr "Citroën"));
    ("fuel", ("string", PStr "diesel"));
    ("paint_color", ("string", PStr "black"));
    ("car_type", ("string", PStr "sedan"));
    ("private_parking_available", ("boolean", PBool true));
    ("has_gps", ("boolean", PBool true));
    ("has_air_conditioning", ("boolean", PBool false));
    ("automatic_car", ("boolean", PBool false));
    ("has_getaround_connect", ("boolean", PBool true));
    ("has_speed_regulator", ("boolean", PBool false));
    ("winter_tires", ("boolean", PBool true)) ].

(** The ["required"] names of a car object. *)
Definition required : list string :=
  [ "mileage"; "engine_power"; "model_key"; "fuel"; "paint_color";
    "car_type"; "private_parking_available"; "has_gps";
    "has_air_conditioning"; "automatic_car"; "has_getaround_connect";
    "has_speed_regulator"; "winter_tires" ].

(** A value of a documented type: a float, a string, a boolean. *)
Definition has_type (t : string) (v : pyval) : bool :=
  match v with
  | PFloat _ => String.eqb t "float"
  | PStr _ => String.eqb t "string"
  | PBool _ => String.eqb t "boolean"
  | _ => false
  end.

(** A car object as the documentation describes it: every required name
    is there, and every documented property that is there has its
    documented type. *)
Definition conforms (obj : gmap string pyval) : bool :=
  forallb (fun name => match obj !! name with Some _ => true | None => false end)
          required
  && forallb (fun p => match obj !! fst p with
                       | Some v => has_type (fst (snd p)) v
                       | None => true
                       end)
             properties.

End Docs.

(** ** api/main.py: the routes of [app] *)
Module Routing.

Inductive endpoint : Type :=
| openapi
| swagger_ui_html
| swagger_ui_redirect
| redoc_html
| root
| predict
| custom_docs.

Record Route : Type :=
  { path : string; methods : list string; endpoint_ : endpoint }.

(** The routes [FastAPI(title=..., description=..., version=...)] adds for
    itself when it is built, the addresses of the schema and of the two
    documentation pages being left at their defaults. *)
Definition setup : list Route :=
  [ {| path := "/openapi.json"; methods := ["GET"; "HEAD"];
       endpoint_ := openapi |};
    {| path := "/docs"; methods := ["GET"; "HEAD"];
       endpoint_ := swagger_ui_html |};
    {| path := "/docs/oauth2-redirect"; methods := ["GET"; "HEAD"];
       endpoint_ := swagger_ui_redirect |};
    {| path := "/redoc"; methods := ["GET"; "HEAD"];
       endpoint_ := redoc_html |} ].

(** The routes of [app] once the module is loaded: its own, then the
    three the decorators add, in the order of the file. *)
Definition routes : list Route :=
  setup ++
  [ {| path := "/"; methods := ["GET"]; endpoint_ := root |};
    {| path := "/predict"; methods := ["POST"]; endpoint_ := predict |};
    {| path := "/docs"; methods := ["GET"]; endpoint_ := custom_docs |} ].

Inductive matched : Type :=
| Full (e : endpoint)
| MethodNotAllowed
| Redirect (to : string)
| NotFound.

Definition full (method p : string) (r : Route) : bool :=
  String.eqb p (path r) && mem method (methods r).

Definition partial (p : string) (r : Route) : bool :=
  String.eqb p (path r).

Fixpoint lstrip_slash (s : list ascii) : list ascii :=
  match s with
  | c :: s' => if Ascii.eqb c "/" then lstrip_slash s' else s
  | [] => []
  end.

(** The path with its trailing slashes taken away, or a slash added when
    it has none. *)
Definition toggle_slash (p : string) : string :=
  match rev (list_ascii_of_string p) with
  | c :: rest =>
      if Ascii.eqb c "/"
      then string_of_list_ascii (rev (lstrip_slash rest))
      else p ++ "/"
  | [] => "/"
  end%string.

(** The router: the first route that matches the path and the method
    answers; failing that, a route that matches the path alone answers
    405; failing that, a path that matches once its trailing slash is
    toggled is redirected; the rest is not found. *)
Definition dispatch (rs : list Route) (method p : string) : matched :=
  match List.find (full method p) rs with
  | Some r => Full (endpoint_ r)
  | None =>
      if existsb (partial p) rs then MethodNotAllowed
      else if negb (String.eqb p "/")
              && existsb (partial (toggle_slash p)) rs
      then Redirect (toggle_slash p)
      else NotFound
  end.

End Routing.

(** The frame with its columns put in another order: column [k] of the
    result is column [nth k p] of the frame. *)
Definition reorder (p : list nat) (X : DataFrame) : DataFrame :=
  {| columns := map (fun j => nth j (columns X) "") p;
     values := map (fun row => map (fun j => nth j row (VFloat F64.nan)) p)
                   (values X) |}.

(** ** ml/model_training.py on any table *)
Module Script.

(** The features the script takes from a table with the given columns:
    the index column goes if it is there, the target has to be there and
    goes, the two numeric columns have to be there and become floats.  The
    script stops with a [KeyError] where a column that has to be there is
    not.  A numeric column read as strings converts only when each of its
    strings reads as a number; the types of the columns do not tell, and
    the conversion is taken to go through, so that every run of the
    script that reaches its features is covered. *)
Definition features (df : Training.schema) : option Training.schema :=
  let df := Training.drop_columns ["Unnamed: 0"] df in
  if mem Training.TARGET (map fst df)
  then
    let X := Training.drop_columns [Training.TARGET] df in
    if mem "mileage" (map fst X) && mem "engine_power" (map fst X)
    then Some (Training.astype "engine_power" float64
                 (Training.astype "mileage" float64 X))
    else None
  else None.

(** [X.select_dtypes("bool").columns.tolist()] *)
Definition boolean_features (X : Training.schema) : list string :=
  map fst (Training.select_dtypes bool_ X).

End Script.

(** ** dashboard/app.py, tab 1: the figures of the delay analysis *)
Module Delays.

(** A row of the delay table once the script has kept the ended rentals
    whose two durations are known and has made the durations integers. *)
Record rental : Type :=
  { checkin_type : value;
    delay_at_checkout_in_minutes : Z;
    time_delta_with_previous_rental_in_minutes : Z }.

(** [df["checkin_type"] == "connect"] *)
Definition connect (r : rental) : bool :=
  match checkin_type r with
  | VStr s => String.eqb s "connect"
  | _ => false
  end.

(** The table under the check-in filter of the side bar. *)
Definition scoped (scope : string) (df : list rental) : list rental :=
  if String.eqb scope "Connect only" then List.filter connect df else df.

(** [df[df["delay_at_checkout_in_minutes"] > 0]] *)
Definition late_returns (df : list rental) : list rental :=
  List.filter (fun r => (0 <? delay_at_checkout_in_minutes r)%Z) df.

Definition resolved_cases (threshold : Z) (late_returns : list rental) :
    list rental :=
  List.filter (fun r => (threshold <? delay_at_checkout_in_minutes r)%Z)
              late_returns.

Definition conflicts (threshold : Z) (df : list rental) : list rental :=
  List.filter
    (fun r => (time_delta_with_previous_rental_in_minutes r <? threshold)%Z) df.

Definition critical_late_returns (threshold : Z)
    (late_returns : list rental) : list rental :=
  List.filter
    (fun r => (time_delta_with_previous_rental_in_minutes r <? threshold)%Z)
    late_returns.

(** The late returns of less than two hours, drawn and offered for
    download. *)
Definition filtered_df (df : list rental) : list rental :=
  List.filter (fun r => (0 <? delay_at_checkout_in_minutes r)%Z
                        && (delay_at_checkout_in_minutes r <? 120)%Z) df.

(** The counts the tab shows. *)
Record figures : Type :=
  { total_late_returns : nat;
    resolved : nat;
    total_rentals : nat;
    rentals_blocked : nat;
    late_returns_affecting_next : nat;
    downloaded : nat }.

Definition tab1 (scope : string) (threshold : Z) (df : list rental) :
    figures :=
  let df := scoped scope df in
  let late_returns := late_returns df in
  let resolved_cases := resolved_cases threshold late_returns in
  let conflicts := conflicts threshold df in
  let critical_late_returns := critical_late_returns threshold late_returns in
  {| total_late_returns := length late_returns;
     resolved := length resolved_cases;
     total_rentals := length df;
     rentals_blocked := length conflicts;
     late_returns_affecting_next := length critical_late_returns;
     downloaded := length (filtered_df df) |}.

End Delays.


(** * Properties *)

(** ** The model at work on sample data *)

Example parse_seven : FloatLiteral.parse "7" = Some (F64.of_Z 7).
Proof. vm_compute. reflexivity. Qed.

Example parse_fraction :
  FloatLiteral.parse " 0.27 " = Some (F64.div (F64.of_Z 27) (F64.of_Z 100)).
Proof. vm_compute. reflexivity. Qed.

Example parse_grouped_digits :
  FloatLiteral.parse "1_000.5e-3"
  = Some (F64.div (F64.of_Z 10005) (F64.of_Z 10000)).
Proof. vm_compute. reflexivity. Qed.

Example parse_tenth :
  FloatLiteral.parse "0.1" = Some (S754_finite false 7205759403792794 (-56)).
Proof. vm_compute. reflexivity. Qed.

Example parse_overflow : FloatLiteral.parse "1e400" = Some (S754_infinity false).
Proof. vm_compute. reflexivity. Qed.

Example parse_no_break_space :
  FloatLiteral.parse (String (ascii_of_nat 194) (String (ascii_of_nat 160) "7"))
  = Some (F64.of_Z 7).
Proof. vm_compute. reflexivity. Qed.

Example parse_rejects :
  map FloatLiteral.parse ["abc"; ""; "."; "1__0"; "7 1"; "_1"; "1e"]
  = [None; None; None; None; None; None; None].
Proof. vm_compute. reflexivity. Qed.

Example startup_sample : startup Sample.files = Some Sample.started.
Proof. vm_compute. reflexivity. Qed.

(** The request of the documentation is answered 200 with one price. *)
Example documented_request_answered :
  fst (post_predict (Sample.payload [PDict Sample.car]) Sample.started)
  = {| status_code := 200; body := Prediction [F64.of_Z 115] |}.
Proof. vm_compute. reflexivity. Qed.

(** A mileage of one billion is served. *)
Example large_mileage_answered :
  fst (post_predict
         (Sample.payload [PDict (<[ "mileage" := PInt 1000000000 ]> Sample.car)])
         Sample.started)
  = {| status_code := 200; body := Prediction [F64.of_Z 100] |}.
Proof. vm_compute. reflexivity. Qed.

(** Errors are collected over the fields and the records of a request. *)
Example errors_collected :
  InputData_validate
    (Sample.payload
       [PDict Sample.car;
        PDict (delete "fuel" (<[ "mileage" := PStr "x" ]> Sample.car));
        PInt 3])
  = Invalid
      [ {| err_type := type_mismatch a_float;
           loc := [Key "body"; Key "input"; Index 1; Key "mileage"] |};
        {| err_type := missing;
           loc := [Key "body"; Key "input"; Index 1; Key "fuel"] |};
        {| err_type := type_mismatch a_dict;
           loc := [Key "body"; Key "input"; Index 2] |} ].
Proof. vm_compute. reflexivity. Qed.

(** ** The frame built from validated records *)

Lemma keys_in_order_records (records : list CarFeatures) :
  records <> [] ->
  keys_in_order (map CarFeatures_dict records) = labels.
Proof.
  intros Hne. destruct records as [|r rs]; [congruence|].
  unfold keys_in_order. cbn [map fold_left].
  change (fold_left _ (map fst (CarFeatures_dict r)) []) with labels.
  clear Hne. induction rs as [|r' rs IH]; [reflexivity|].
  cbn [map fold_left].
  change (fold_left _ (map fst (CarFeatures_dict r')) labels) with labels.
  exact IH.
Qed.

Lemma frame_nil : frame [] = {| columns := []; values := [] |}.
Proof. reflexivity. Qed.

Lemma frame_columns (records : list CarFeatures) :
  records <> [] -> columns (frame records) = labels.
Proof. intros H. unfold frame, DataFrame_from_records. cbn [columns]. now apply keys_in_order_records. Qed.

Lemma frame_values (records : list CarFeatures) :
  values (frame records) = map row records.
Proof.
  destruct records as [|r rs]; [reflexivity|].
  unfold frame, DataFrame_from_records. cbn [values].
  rewrite keys_in_order_records by discriminate.
  rewrite map_map. apply map_ext. intros r'. reflexivity.
Qed.

(** ** The pipeline, read one record at a time *)

Lemma traverse_Returns {A B} (f : A -> outcome B) (g : A -> B) (l : list A) :
  (forall a, f a = Returns (g a)) ->
  traverse f l = Returns (map g l).
Proof.
  intros H. induction l as [|a l IH]; [reflexivity|].
  cbn [traverse map]. rewrite H, IH. reflexivity.
Qed.

Lemma zip_with_map_same {A B C D} (op : B -> C -> D) (f : A -> B) (g : A -> C)
    (l : list A) :
  zip_with op (map f l) (map g l) = map (fun a => op (f a) (g a)) l.
Proof. induction l as [|a l IH]; [reflexivity|]. cbn. now rewrite IH. Qed.

Lemma forallb_map {A B} (p : B -> bool) (f : A -> B) (l : list A) :
  forallb p (map f l) = forallb (fun a => p (f a)) l.
Proof. induction l as [|a l IH]; [reflexivity|]. cbn. now rewrite IH. Qed.

Lemma forallb_andb {A} (p q : A -> bool) (l : list A) :
  forallb (fun a => p a && q a) l = forallb p l && forallb q l.
Proof.
  induction l as [|a l IH]; [reflexivity|]. cbn. rewrite IH.
  destruct (p a), (q a), (forallb p l); reflexivity.
Qed.

Lemma forallb_const {A} (c : bool) (l : list A) :
  l <> [] -> forallb (fun _ => c) l = c.
Proof.
  intros H. destruct l as [|a l]; [congruence|]. clear H.
  cbn. induction l as [|a' l IH]; cbn; destruct c; auto.
Qed.

Lemma select_frame (records : list CarFeatures) (names : list string)
    (js : list nat) :
  records <> [] ->
  mapM (fun c => index_of c labels) names = Some js ->
  select (frame records) names =
    Returns (map (fun r => map (fun j => nth j (row r) (VFloat F64.nan)) js)
                 records).
Proof.
  intros Hne Hjs. unfold select, getitem.
  rewrite frame_columns, frame_values by assumption.
  rewrite Hjs. cbn. rewrite map_map. reflexivity.
Qed.

Lemma traverse_map_Returns {A B C} (f : B -> outcome C) (h : A -> B)
    (g : A -> C) (l : list A) :
  (forall a, f (h a) = Returns (g a)) ->
  traverse f (map h l) = Returns (map g l).
Proof.
  intros H. induction l as [|a l IH]; [reflexivity|].
  cbn [traverse map]. rewrite H, IH. reflexivity.
Qed.

Lemma to_float_floats (xs : list float) :
  traverse to_float (map VFloat xs) = Returns xs.
Proof.
  rewrite (traverse_map_Returns to_float VFloat (fun x => x)) by reflexivity.
  now rewrite map_id.
Qed.

Lemma to_float_bools (bs : list bool) :
  traverse to_float (map VBool bs) = Returns (map F64.of_bool bs).
Proof. now apply traverse_map_Returns. Qed.

Lemma asarray_floats {A} (f : A -> list float) (l : list A) :
  asarray (map (fun a => map VFloat (f a)) l) = Returns (map f l).
Proof. apply traverse_map_Returns. intros a. apply to_float_floats. Qed.

Lemma asarray_bools {A} (f : A -> list bool) (l : list A) :
  asarray (map (fun a => map VBool (f a)) l)
  = Returns (map (fun a => map F64.of_bool (f a)) l).
Proof. apply traverse_map_Returns. intros a. apply to_float_bools. Qed.

(** The scaler on the numeric columns of the frame. *)
Lemma StandardScaler_frame (mean_ scale_ : list float)
    (records : list CarFeatures) :
  records <> [] ->
  returned (StandardScaler_transform mean_ scale_
              (map (fun r => map VFloat (numeric r)) records))
  = if forallb (fun r => forallb (acceptable true) (numeric r)) records
       && (length mean_ =? 2)%nat
    then Some (map (fun r => standardize mean_ scale_ (numeric r)) records)
    else None.
Proof.
  intros Hne. unfold StandardScaler_transform.
  rewrite asarray_floats. cbn [bind]. unfold check_array.
  rewrite forallb_map.
  destruct (forallb _ records); cbn [negb andb]; [|reflexivity].
  destruct (map numeric records) eqn:E.
  { destruct records; [congruence|discriminate]. }
  rewrite <- E. cbn [bind]. unfold check_n_features.
  rewrite forallb_map. cbn [numeric length].
  rewrite forallb_const by assumption.
  rewrite Nat.eqb_sym.
  destruct (length mean_ =? 2)%nat; cbn [bind returned]; [|reflexivity].
  now rewrite map_map.
Qed.

Lemma encode_ignore (cats : list string) (v : value) :
  encode ignore cats v = Returns (onehot cats v).
Proof. unfold encode, onehot. now destruct (indicators cats v). Qed.

Lemma encode_row_ignore (categories_ : list (list string)) (vs : list value) :
  encode_row ignore categories_ vs
  = Returns (concat (map (fun cv => onehot (fst cv) (snd cv))
                         (zip categories_ vs))).
Proof.
  unfold encode_row.
  rewrite (traverse_Returns _ (fun cv => onehot (fst cv) (snd cv)))
    by (intros; apply encode_ignore).
  reflexivity.
Qed.

(** The encoder on the categorical columns of the frame. *)
Lemma OneHotEncoder_frame (categories_ : list (list string))
    (records : list CarFeatures) :
  records <> [] ->
  returned (OneHotEncoder_transform ignore categories_
              (map categorical records))
  = if (length categories_ =? 4)%nat
    then Some (map (fun r => concat (map (fun cv => onehot (fst cv) (snd cv))
                                         (zip categories_ (categorical r))))
                   records)
    else None.
Proof.
  intros Hne. unfold OneHotEncoder_transform.
  destruct (map categorical records) eqn:E.
  { destruct records; [congruence|discriminate]. }
  rewrite <- E. unfold check_n_features.
  rewrite forallb_map. cbn [categorical length].
  rewrite forallb_const by assumption.
  rewrite Nat.eqb_sym.
  destruct (length categories_ =? 4)%nat; cbn [bind returned]; [|reflexivity].
  rewrite (traverse_map_Returns _ categorical
             (fun r => concat (map (fun cv => onehot (fst cv) (snd cv))
                                   (zip categories_ (categorical r)))))
    by (intros; apply encode_row_ignore).
  reflexivity.
Qed.

(** The forest on the encoded rows. *)
Lemma RandomForestRegressor_frame (fit : Training.Fitted)
    (records : list CarFeatures) :
  records <> [] ->
  returned (RandomForestRegressor_predict
              (steps_model (Training.pipeline fit))
              (map (encoded fit) records))
  = if forallb (fun r => forallb (acceptable (Training.forest_allow_nan fit))
                                 (map F64.astype_float32 (encoded fit r)))
               records
    then Some (map (price fit) records)
    else None.
Proof.
  intros Hne. unfold RandomForestRegressor_predict, check_array.
  cbn [Training.pipeline steps_model allow_nan estimators_].
  rewrite !forallb_map.
  destruct (forallb _ records); cbn [negb]; [|reflexivity].
  destruct (map _ (map _ records)) eqn:E.
  { destruct records; [congruence|discriminate]. }
  rewrite <- E. cbn [bind returned]. now rewrite !map_map.
Qed.

Lemma returned_bind {A B} (x : outcome A) (k : A -> outcome B) :
  returned (bind x k) =
  match returned x with Some a => returned (k a) | None => None end.
Proof. now destruct x. Qed.

Lemma returned_Some {A} (x : outcome A) (a : A) :
  returned x = Some a -> x = Returns a.
Proof. destruct x; cbn; congruence. Qed.

(** The preprocessor on the frame: every record is encoded on its own. *)
Lemma preprocessor_frame (fit : Training.Fitted) (records : list CarFeatures) :
  records <> [] ->
  returned (ColumnTransformer_transform (Training.preprocessor fit)
                                        (frame records))
  = if forallb (fun r => forallb (acceptable true) (numeric r)) records
       && (length (Training.scaler_mean fit) =? 2)%nat
       && (length (Training.encoder_categories fit) =? 4)%nat
    then Some (map (encoded fit) records)
    else None.
Proof.
  intros Hne. unfold ColumnTransformer_transform.
  rewrite frame_columns by assumption.
  change (forallb _ (used_columns (Training.preprocessor fit))) with true.
  cbn [negb]. cbn [Training.preprocessor transformers remainder traverse fst snd].
  rewrite (select_frame records Training.numeric_features [0; 1]%nat)
    by (assumption || reflexivity).
  rewrite (select_frame records Training.categorical_features [2; 3; 4; 5]%nat)
    by (assumption || reflexivity).
  change (remainder_columns _) with Training.boolean_features.
  rewrite (select_frame records Training.boolean_features
             [6; 7; 8; 9; 10; 11; 12]%nat)
    by (assumption || reflexivity).
  change (map (fun r => map (fun j => nth j (row r) (VFloat F64.nan)) [0; 1]%nat)
              records)
    with (map (fun r => map VFloat (numeric r)) records).
  change (map (fun r => map (fun j => nth j (row r) (VFloat F64.nan))
                            [2; 3; 4; 5]%nat) records)
    with (map categorical records).
  change (map (fun r => map (fun j => nth j (row r) (VFloat F64.nan))
                            [6; 7; 8; 9; 10; 11; 12]%nat) records)
    with (map (fun r => map VBool (flags r)) records).
  cbn [bind transform].
  pose proof (StandardScaler_frame (Training.scaler_mean fit)
                (Training.scaler_scale fit) records Hne) as Hnum.
  pose proof (OneHotEncoder_frame (Training.encoder_categories fit)
                records Hne) as Hcat.
  rewrite asarray_bools.
  destruct (StandardScaler_transform _ _ _) as [A|e]; cbn [returned] in Hnum;
    destruct (forallb _ records && _); try discriminate;
    cbn [bind returned andb]; [|reflexivity].
  injection Hnum as ->.
  destruct (OneHotEncoder_transform _ _ _) as [B|e]; cbn [returned] in Hcat;
    destruct (length (Training.encoder_categories fit) =? 4)%nat;
    try discriminate; cbn [bind returned]; [|reflexivity].
  injection Hcat as ->.
  f_equal. cbn [app hstack fold_left].
  rewrite !zip_with_map_same. reflexivity.
Qed.

(** The pipeline on the frame of one or more records: the records are
    accepted or refused together, and each accepted record gets the price
    the pipeline has for it alone. *)
Lemma Pipeline_predict_frame (fit : Training.Fitted)
    (records : list CarFeatures) :
  records <> [] ->
  returned (Pipeline_predict (Training.pipeline fit) (frame records))
  = if forallb (accepted fit) records
    then Some (map (price fit) records)
    else None.
Proof.
  intros Hne. unfold Pipeline_predict. rewrite returned_bind.
  change (steps_preprocessor (Training.pipeline fit))
    with (Training.preprocessor fit).
  rewrite preprocessor_frame by assumption.
  unfold accepted. rewrite !forallb_andb, !forallb_const by assumption.
  destruct (forallb _ records && _ && _); cbn [andb]; [|reflexivity].
  now apply RandomForestRegressor_frame.
Qed.

(** ** Validation does not depend on where the value stands *)

Lemma agree_ap {A B} (f g : validated (A -> B)) (x y : validated A) :
  agree f g -> agree x y -> agree (f <*> x) (g <*> y).
Proof.
  destruct f, g, x, y; cbn; try tauto; try congruence.
Qed.

Lemma agree_field {A} (validator : pyval -> option A) (e : expected)
    (obj : gmap string pyval) (at1 at2 : list loc_item) (name : string) :
  agree (field validator e obj at1 name) (field validator e obj at2 name).
Proof.
  unfold field. destruct (obj !! name) as [v|]; [|exact I].
  destruct (validator v); [reflexivity|exact I].
Qed.

Lemma agree_Valid {A} (x y : validated A) (a : A) :
  agree x y -> x = Valid a -> y = Valid a.
Proof. intros H ->. destruct y; cbn in H; [congruence|contradiction]. Qed.

Lemma CarFeatures_validate_agree (at1 at2 : list loc_item) (v : pyval) :
  agree (CarFeatures_validate at1 v) (CarFeatures_validate at2 v).
Proof.
  destruct v; try exact I. unfold CarFeatures_validate.
  repeat (apply agree_ap; [|apply agree_field]). reflexivity.
Qed.

Lemma CarFeatures_validate_loc (at1 at2 : list loc_item) (v : pyval)
    (r : CarFeatures) :
  CarFeatures_validate at1 v = Valid r -> CarFeatures_validate at2 v = Valid r.
Proof. apply agree_Valid, CarFeatures_validate_agree. Qed.

Lemma items_Valid_inv (at_ : list loc_item) (l : list pyval) :
  forall (i : nat) (rs : list CarFeatures),
  items CarFeatures_validate at_ i l = Valid rs ->
  Forall2 (fun v r => forall at', CarFeatures_validate at' v = Valid r) l rs.
Proof.
  induction l as [|v l IH]; intros i rs H; cbn in H.
  - injection H as <-. constructor.
  - destruct (CarFeatures_validate (at_ ++ [Index i]) v) as [r|es] eqn:Hv;
      destruct (items CarFeatures_validate at_ (S i) l) as [rs'|es'] eqn:Hl;
      cbn in H; try discriminate.
    injection H as <-. constructor.
    + intros at'. eapply CarFeatures_validate_loc, Hv.
    + eapply IH, Hl.
Qed.

Lemma items_Valid (at_ : list loc_item) (l : list pyval) :
  forall (i : nat) (rs : list CarFeatures),
  Forall2 (fun v r => forall at', CarFeatures_validate at' v = Valid r) l rs ->
  items CarFeatures_validate at_ i l = Valid rs.
Proof.
  induction l as [|v l IH]; intros i rs H; inversion H; subst; cbn.
  - reflexivity.
  - rewrite H2. erewrite IH by eassumption. reflexivity.
Qed.

Lemma InputData_validate_input (top : gmap string pyval) (l : list pyval) :
  top !! "input" = Some (PList l) ->
  InputData_validate (PDict top)
  = Valid Build_InputData
      <*> items CarFeatures_validate [Key "body"; Key "input"] 0 l.
Proof. intros H. unfold InputData_validate. now rewrite H. Qed.

Lemma InputData_Valid_inv (top : gmap string pyval) (l : list pyval)
    (data : InputData) :
  top !! "input" = Some (PList l) ->
  InputData_validate (PDict top) = Valid data ->
  Forall2 (fun v r => forall at', CarFeatures_validate at' v = Valid r)
          l (input data).
Proof.
  intros Hin H. rewrite (InputData_validate_input _ _ Hin) in H.
  destruct (items _ _ _ l) as [rs|es] eqn:Hl; cbn in H; [|discriminate].
  injection H as <-. cbn. eapply items_Valid_inv, Hl.
Qed.

Lemma InputData_Valid (top : gmap string pyval) (l : list pyval)
    (rs : list CarFeatures) :
  top !! "input" = Some (PList l) ->
  Forall2 (fun v r => forall at', CarFeatures_validate at' v = Valid r) l rs ->
  InputData_validate (PDict top) = Valid {| input := rs |}.
Proof.
  intros Hin H. rewrite (InputData_validate_input _ _ Hin).
  now rewrite (items_Valid _ _ _ _ H).
Qed.

(** ** The answer to a valid request *)

Lemma post_predict_Valid (fit : Training.Fitted) (s : process)
    (payload : pyval) (data : InputData) :
  model s = Training.pipeline fit ->
  InputData_validate payload = Valid data ->
  input data <> [] ->
  post_predict payload s
  = (if forallb (scored fit) (input data)
     then answer_200 (map (price fit) (input data))
     else answer_500,
     {| model := model s;
        log := log s ++ [Predicted (frame (input data))] |}).
Proof.
  intros Hm Hv Hne. unfold post_predict. rewrite Hv.
  unfold predict, and_then, model_predict, ret.
  fold (frame (input data)). rewrite Hm.
  pose proof (Pipeline_predict_frame fit (input data) Hne) as H.
  unfold scored. rewrite forallb_andb.
  destruct (Pipeline_predict _ _) as [ps|e]; cbn [returned] in H;
    destruct (forallb (accepted fit) (input data)); try discriminate;
    cbn [andb]; [|reflexivity].
  injection H as ->. rewrite forallb_map.
  now destruct (forallb _ (input data)).
Qed.

Lemma forallb_lookup {A} (p : A -> bool) (l : list A) (i : nat) (x : A) :
  forallb p l = true -> l !! i = Some x -> p x = true.
Proof.
  revert i. induction l as [|a l IH]; intros i H Hi; [discriminate|].
  cbn in H. apply andb_prop in H as [Ha Hl].
  destruct i; cbn in Hi; [congruence|eauto].
Qed.

Lemma forallb_false_lookup {A} (p : A -> bool) (l : list A) :
  forallb p l = false -> exists i x, l !! i = Some x /\ p x = false.
Proof.
  induction l as [|a l IH]; intros H; [discriminate|]. cbn in H.
  destruct (p a) eqn:Ha.
  - destruct (IH H) as (i & x & Hi & Hx). now exists (S i), x.
  - now exists 0%nat, a.
Qed.

Lemma lookup_map {A B} (f : A -> B) (l : list A) (i : nat) (x : A) :
  l !! i = Some x -> map f l !! i = Some (f x).
Proof.
  revert i. induction l as [|a l IH]; intros i H; [discriminate|].
  destruct i; cbn in *; [congruence|eauto].
Qed.

(** The model on the frame of one record. *)
Lemma Pipeline_predict_one (fit : Training.Fitted) (r : CarFeatures) :
  returned (Pipeline_predict (Training.pipeline fit) (frame [r]))
  = if accepted fit r then Some [price fit r] else None.
Proof.
  rewrite Pipeline_predict_frame by discriminate.
  cbn [forallb map]. now rewrite andb_true_r.
Qed.

(** C1, as amended.  Take a valid request of one or more records, served
    by a pipeline of the training script.  Its validated records are the
    records of the body, in order, and the model is called once, on the
    frame of these records.  Either the request is answered 200 with the
    list the model returns for that frame, one finite number per record,
    the i-th being what the model returns for the one-row frame of the
    i-th record; or the request is answered 500, and there is a record
    on whose one-row frame the model raises or returns a number that is
    not finite. *)
Theorem predict_pairs_by_position (fit : Training.Fitted) (s : process)
    (top : gmap string pyval) (records : list pyval) (data : InputData) :
  model s = Training.pipeline fit ->
  top !! "input" = Some (PList records) ->
  InputData_validate (PDict top) = Valid data ->
  records <> [] ->
  let output X := Pipeline_predict (model s) X in
  let together := fst (post_predict (PDict top) s) in
  Forall2 (fun v r => forall at_, CarFeatures_validate at_ v = Valid r)
          records (input data)
  /\ log (snd (post_predict (PDict top) s))
     = log s ++ [Predicted (frame (input data))]
  /\ ((exists prediction,
         together = answer_200 prediction /\
         output (frame (input data)) = Returns prediction /\
         length prediction = length records /\
         forall i r, input data !! i = Some r ->
           exists p, prediction !! i = Some p
                     /\ output (frame [r]) = Returns [p]
                     /\ F64.isfinite p = true)
      \/ (together = answer_500 /\
          exists i r, input data !! i = Some r /\
            forall p, output (frame [r]) = Returns [p] ->
                      F64.isfinite p = false)).
Proof.
  intros Hm Hin Hv Hne output together.
  pose proof (InputData_Valid_inv top records data Hin Hv) as HF.
  assert (input data <> []) as Hne'.
  { intros E. rewrite E in HF. inversion HF. congruence. }
  split; [exact HF|]. subst together output. cbn beta.
  rewrite (post_predict_Valid fit s _ data Hm Hv Hne'), Hm.
  cbn [fst snd log]. split; [reflexivity|].
  destruct (forallb (scored fit) (input data)) eqn:Hall.
  - left. exists (map (price fit) (input data)). split; [reflexivity|].
    assert (forallb (accepted fit) (input data) = true) as Hacc.
    { unfold scored in Hall. rewrite forallb_andb in Hall.
      now apply andb_prop in Hall as [-> _]. }
    split; [|split].
    + apply returned_Some.
      now rewrite (Pipeline_predict_frame fit _ Hne'), Hacc.
    + rewrite length_map. symmetry. eapply Forall2_length, HF.
    + intros i r Hr. exists (price fit r).
      pose proof (forallb_lookup _ _ _ _ Hall Hr) as Hs.
      unfold scored in Hs. apply andb_prop in Hs as [Ha Hf].
      split; [now apply lookup_map|]. split; [|exact Hf].
      apply returned_Some. now rewrite Pipeline_predict_one, Ha.
  - right. split; [reflexivity|].
    destruct (forallb_false_lookup _ _ Hall) as (i & r & Hr & Hbad).
    exists i, r. split; [exact Hr|]. intros p Hp.
    apply (f_equal returned) in Hp. rewrite Pipeline_predict_one in Hp.
    unfold scored in Hbad. destruct (accepted fit r); [|discriminate Hp].
    cbn in Hp. injection Hp as <-. exact Hbad.
Qed.

(** C1 fails as stated: a request that passes validation, with one record
    whose mileage is 1e300, is answered 500; the scaled mileage does not
    fit binary32 and the forest refuses it. *)
Lemma predict_huge_mileage_500 :
  let payload :=
    Sample.payload
      [PDict (<[ "mileage" := PFloat (F64.of_decimal false 1 300) ]> Sample.car)] in
  (exists data, InputData_validate payload = Valid data
                /\ length (input data) = 1%nat)
  /\ fst (post_predict payload Sample.started) <> answer_200 []
  /\ status_code (fst (post_predict payload Sample.started)) = 500%nat.
Proof.
  cbv zeta. split; [|split].
  - eexists. split; [vm_compute; reflexivity|reflexivity].
  - vm_compute. discriminate.
  - vm_compute. reflexivity.
Qed.

Lemma predict_pairs_by_position_witness :
  let records :=
    [PDict Sample.car;
     PDict (<[ "mileage" := PInt 200000 ]> Sample.car)] in
  status_code (fst (post_predict (Sample.payload records) Sample.started))
  = 200%nat
  /\ exists data,
    InputData_validate (Sample.payload records) = Valid data
    /\ let output X := Pipeline_predict (model Sample.started) X in
       let together :=
         fst (post_predict (Sample.payload records) Sample.started) in
       Forall2 (fun v r => forall at_, CarFeatures_validate at_ v = Valid r)
               records (input data)
       /\ log (snd (post_predict (Sample.payload records) Sample.started))
          = log Sample.started ++ [Predicted (frame (input data))]
       /\ ((exists prediction,
              together = answer_200 prediction /\
              output (frame (input data)) = Returns prediction /\
              length prediction = length records /\
              forall i r, input data !! i = Some r ->
                exists p, prediction !! i = Some p
                          /\ output (frame [r]) = Returns [p]
                          /\ F64.isfinite p = true)
           \/ (together = answer_500 /\
               exists i r, input data !! i = Some r /\
                 forall p, output (frame [r]) = Returns [p] ->
                           F64.isfinite p = false)).
Proof.
  cbv zeta. split; [vm_compute; reflexivity|].
  eexists. split; [vm_compute; reflexivity|].
  eapply (predict_pairs_by_position Sample.fit Sample.started).
  - reflexivity.
  - vm_compute. reflexivity.
  - vm_compute. reflexivity.
  - discriminate.
Defined.

(** ** Validation errors *)

Lemma errors_of_ap {A B} (f : validated (A -> B)) (x : validated A) :
  errors_of (f <*> x) = errors_of f ++ errors_of x.
Proof. destruct f, x; cbn; now rewrite ?app_nil_r. Qed.

Lemma Invalid_errors_of {A} (x : validated A) (e : ErrorDetails) :
  e ∈ errors_of x -> x = Invalid (errors_of x).
Proof. destruct x; cbn; [|reflexivity]. intros H. inversion H. Qed.

Lemma errors_of_items_lookup {A}
    (item : list loc_item -> pyval -> validated A) (at_ : list loc_item)
    (e : ErrorDetails) (l : list pyval) :
  forall (k i : nat) (v : pyval),
  l !! i = Some v ->
  e ∈ errors_of (item (at_ ++ [Index (k + i)]) v) ->
  e ∈ errors_of (items item at_ k l).
Proof.
  induction l as [|v' l IH]; intros k i v Hi He; [discriminate|].
  cbn [items]. rewrite !errors_of_ap. cbn [errors_of app].
  apply elem_of_app. destruct i as [|i]; cbn in Hi.
  - left. injection Hi as ->. now rewrite Nat.add_0_r in He.
  - right. apply (IH (S k) i v Hi).
    now replace (S k + i)%nat with (k + S i)%nat by lia.
Qed.

Lemma errors_of_field_missing {A} (validator : pyval -> option A)
    (e : expected) (obj : gmap string pyval) (at_ : list loc_item)
    (name : string) :
  obj !! name = None ->
  errors_of (field validator e obj at_ name)
  = [ {| err_type := missing; loc := at_ ++ [Key name] |} ].
Proof. intros H. unfold field. now rewrite H. Qed.

Lemma errors_of_CarFeatures_missing (at_ : list loc_item)
    (obj : gmap string pyval) (name : string) :
  name ∈ map fst CarFeatures_fields ->
  obj !! name = None ->
  {| err_type := missing; loc := at_ ++ [Key name] |}
    ∈ errors_of (CarFeatures_validate at_ (PDict obj)).
Proof.
  intros Hname Hobj. unfold CarFeatures_validate.
  rewrite !errors_of_ap. cbn [errors_of app].
  cbn [map fst CarFeatures_fields] in Hname.
  repeat (apply elem_of_cons in Hname as [->|Hname];
          [rewrite (errors_of_field_missing _ _ _ _ _ Hobj);
           rewrite !elem_of_app, list_elem_of_singleton; tauto|]).
  inversion Hname.
Qed.

(** C2.  A request in which some record lacks one of the thirteen declared
    fields is answered 422 with the errors of the validation, among them
    the missing-field error placed at that field of that record; the
    process is left as it was, so the model has not been called. *)
Theorem missing_field_rejected (s : process) (top : gmap string pyval)
    (records : list pyval) (i : nat) (obj : gmap string pyval)
    (name : string) :
  name ∈ map fst CarFeatures_fields ->
  top !! "input" = Some (PList records) ->
  records !! i = Some (PDict obj) ->
  obj !! name = None ->
  exists es,
    post_predict (PDict top) s
    = ({| status_code := 422; body := Detail es |}, s)
    /\ {| err_type := missing;
          loc := [Key "body"; Key "input"; Index i; Key name] |} ∈ es.
Proof.
  intros Hname Hin Hi Hobj.
  assert ({| err_type := missing;
             loc := [Key "body"; Key "input"; Index i; Key name] |}
            ∈ errors_of (InputData_validate (PDict top))) as He.
  { rewrite (InputData_validate_input _ _ Hin), errors_of_ap.
    cbn [errors_of app].
    apply (errors_of_items_lookup _ _ _ _ 0%nat i _ Hi).
    apply (errors_of_CarFeatures_missing
             ([Key "body"; Key "input"] ++ [Index (0 + i)]) obj name Hname Hobj). }
  exists (errors_of (InputData_validate (PDict top))). split; [|exact He].
  unfold post_predict. now rewrite (Invalid_errors_of _ _ He).
Qed.

Lemma missing_field_rejected_witness :
  exists es,
    post_predict (Sample.payload [PDict (delete "fuel" Sample.car)])
                 Sample.started
    = ({| status_code := 422; body := Detail es |}, Sample.started)
    /\ {| err_type := missing;
          loc := [Key "body"; Key "input"; Index 0; Key "fuel"] |} ∈ es.
Proof.
  apply (missing_field_rejected Sample.started
           {[ "input" := PList [PDict (delete "fuel" Sample.car)] ]}
           [PDict (delete "fuel" Sample.car)] 0
           (delete "fuel" Sample.car) "fuel").
  - cbn. repeat constructor.
  - vm_compute. reflexivity.
  - reflexivity.
  - vm_compute. reflexivity.
Defined.

(** ** The process state across requests *)

Lemma post_predict_state (payload : pyval) (s : process) :
  model (snd (post_predict payload s)) = model s
  /\ exists evs, log (snd (post_predict payload s)) = log s ++ evs
                 /\ Forall is_Predicted evs.
Proof.
  unfold post_predict.
  destruct (InputData_validate payload) as [data|es]; cbn [snd].
  - unfold predict, and_then, model_predict, ret.
    destruct (Pipeline_predict _ _) as [ps|e];
      [destruct (forallb F64.isfinite ps)|]; cbn [snd model log];
      (split; [reflexivity|eexists; split; [reflexivity|]]);
      repeat constructor.
  - split; [reflexivity|]. exists []. now rewrite app_nil_r.
Qed.

Lemma handle_state (r : request) (s : process) :
  model (snd (handle r s)) = model s
  /\ exists evs, log (snd (handle r s)) = log s ++ evs
                 /\ Forall is_Predicted evs.
Proof.
  destruct r; cbn [handle snd]; try apply post_predict_state;
    (split; [reflexivity|]); exists []; now rewrite app_nil_r.
Qed.

Lemma serve_state (rs : list request) :
  forall s : process,
  model (snd (serve rs s)) = model s
  /\ exists evs, log (snd (serve rs s)) = log s ++ evs
                 /\ Forall is_Predicted evs.
Proof.
  induction rs as [|r rs IH]; intros s; cbn [serve].
  - split; [reflexivity|]. exists []. now rewrite app_nil_r.
  - destruct (handle_state r s) as (Hm & evs & Hl & Hp).
    destruct (handle r s) as [a s']. cbn [snd] in *.
    destruct (IH s') as (Hm' & evs' & Hl' & Hp').
    destruct (serve rs s') as [answers s'']. cbn [snd] in *.
    split; [congruence|]. exists (evs ++ evs'). split.
    + now rewrite Hl', Hl, app_assoc.
    + now apply Forall_app.
Qed.

Lemma post_predict_answer (payload : pyval) (s s' : process) :
  model s = model s' ->
  fst (post_predict payload s) = fst (post_predict payload s').
Proof.
  intros Hm. unfold post_predict.
  destruct (InputData_validate payload) as [data|es]; [|reflexivity].
  unfold predict, and_then, model_predict, ret. rewrite Hm.
  destruct (Pipeline_predict _ _) as [ps|e];
    [destruct (forallb F64.isfinite ps)|]; reflexivity.
Qed.

(** C7.  The same request sent twice to the same process gets the same
    answer twice, whatever the request. *)
Theorem predict_twice_same_answer (s : process) (payload : pyval) :
  let '(first, s1) := post_predict payload s in
  let '(second, _) := post_predict payload s1 in
  first = second.
Proof.
  pose proof (post_predict_state payload s) as [Hm _].
  destruct (post_predict payload s) as [first s1] eqn:E1. cbn [snd] in Hm.
  pose proof (post_predict_answer payload s1 s Hm) as H.
  destruct (post_predict payload s1) as [second s2]. cbn [fst] in H.
  rewrite H, E1. reflexivity.
Qed.

(** C8.  A request that fails validation is answered 422 with the errors
    found; the process is left as it was and no call of the model is
    logged. *)
Theorem invalid_request_never_scored (s : process) (payload : pyval)
    (es : list ErrorDetails) :
  InputData_validate payload = Invalid es ->
  post_predict payload s = ({| status_code := 422; body := Detail es |}, s)
  /\ forall X, Predicted X ∈ log (snd (post_predict payload s)) ->
               Predicted X ∈ log s.
Proof.
  intros H. unfold post_predict. rewrite H. split; [reflexivity|].
  intros X HX. exact HX.
Qed.

Lemma invalid_request_never_scored_witness :
  let payload :=
    Sample.payload
      [PDict Sample.car; PDict (<[ "has_gps" := PStr "maybe" ]> Sample.car)] in
  let es :=
    [ {| err_type := type_mismatch a_bool;
         loc := [Key "body"; Key "input"; Index 1; Key "has_gps"] |} ] in
  post_predict payload Sample.started
  = ({| status_code := 422; body := Detail es |}, Sample.started)
  /\ forall X, Predicted X ∈ log (snd (post_predict payload Sample.started)) ->
               Predicted X ∈ log Sample.started.
Proof.
  cbv zeta. apply invalid_request_never_scored.
  vm_compute. reflexivity.
Defined.

(** C9.  The model is loaded once, when the process starts, from the model
    file; whatever requests follow, the process still holds that model,
    and its log holds that one load followed by calls of the model only. *)
Theorem model_loaded_once_and_kept (files : gmap string Pipeline)
    (s0 : process) (rs : list request) :
  startup files = Some s0 ->
  let s := snd (serve rs s0) in
  files !! "model/model.joblib" = Some (model s)
  /\ model s = model s0
  /\ exists calls, log s = Loaded "model/model.joblib" :: calls
                   /\ Forall is_Predicted calls.
Proof.
  intros Hs s. unfold startup in Hs.
  destruct (files !! "model/model.joblib") as [m|] eqn:Hf; [|discriminate].
  cbn in Hs. injection Hs as <-.
  destruct (serve_state rs {| model := m; log := [Loaded "model/model.joblib"] |})
    as (Hm & evs & Hl & Hp).
  fold s in Hm, Hl. cbn [model log] in *.
  split; [now rewrite Hm|]. split; [exact Hm|].
  exists evs. split; [exact Hl|exact Hp].
Qed.

Lemma model_loaded_once_and_kept_witness :
  let rs :=
    [GET_root; POST_predict (Sample.payload [PDict Sample.car]); GET_docs;
     POST_predict (Sample.payload [])] in
  let s := snd (serve rs Sample.started) in
  Sample.files !! "model/model.joblib" = Some (model s)
  /\ model s = model Sample.started
  /\ exists calls, log s = Loaded "model/model.joblib" :: calls
                   /\ Forall is_Predicted calls.
Proof.
  cbv zeta. apply (model_loaded_once_and_kept Sample.files Sample.started).
  vm_compute. reflexivity.
Defined.

(** ** The empty request *)

Lemma transform_no_rows (t : transformer) :
  exists e, transform t [] = Raises e.
Proof. destruct t; cbn; eauto. Qed.

Lemma select_empty_frame (names : list string) :
  select empty_frame names = Returns [] \/
  select empty_frame names = Raises columns_are_missing.
Proof.
  unfold select, getitem. cbn [columns values empty_frame].
  destruct (mapM _ names); cbn; auto.
Qed.

(** No preprocessor gets a row out of the empty frame. *)
Lemma ColumnTransformer_transform_empty (ct : ColumnTransformer) :
  (exists e, ColumnTransformer_transform ct empty_frame = Raises e)
  \/ ColumnTransformer_transform ct empty_frame = Returns [].
Proof.
  unfold ColumnTransformer_transform.
  destruct (negb _); [left; eauto|].
  destruct (transformers ct) as [|[[name t] names] ts].
  - cbn [traverse bind app].
    destruct (remainder ct); [right; reflexivity|].
    destruct (select_empty_frame (remainder_columns ct)) as [-> | ->];
      cbn; [right; reflexivity|left; eauto].
  - left. cbn [traverse bind fst snd].
    destruct (select_empty_frame names) as [-> | ->]; cbn [bind]; [|eauto].
    destruct (transform_no_rows t) as [e ->]. cbn. eauto.
Qed.

Lemma Pipeline_predict_empty (p : Pipeline) :
  exists e, Pipeline_predict p empty_frame = Raises e.
Proof.
  unfold Pipeline_predict.
  destruct (ColumnTransformer_transform_empty (steps_preprocessor p))
    as [[e ->] | ->]; cbn; eauto.
Qed.

(** C4, as amended.  The request whose input is the empty list passes
    validation; the model is called once, on the frame with no row and no
    column; the call raises and the request is answered 500, whatever the
    model and the state of the process. *)
Theorem empty_input_answered_500 (s : process) (top : gmap string pyval) :
  top !! "input" = Some (PList []) ->
  InputData_validate (PDict top) = Valid {| input := [] |}
  /\ post_predict (PDict top) s
     = ({| status_code := 500; body := InternalServerError |},
        {| model := model s;
           log := log s ++ [Predicted {| columns := []; values := [] |}] |}).
Proof.
  intros Hin.
  assert (InputData_validate (PDict top) = Valid {| input := [] |}) as Hv.
  { now rewrite (InputData_validate_input _ _ Hin). }
  split; [exact Hv|].
  unfold post_predict. rewrite Hv.
  unfold predict, and_then, model_predict, ret. cbn [input map].
  change (DataFrame_from_records []) with empty_frame.
  destruct (Pipeline_predict_empty (model s)) as [e ->]. reflexivity.
Qed.

Lemma empty_input_answered_500_witness :
  InputData_validate (Sample.payload []) = Valid {| input := [] |}
  /\ post_predict (Sample.payload []) Sample.started
     = ({| status_code := 500; body := InternalServerError |},
        {| model := model Sample.started;
           log := log Sample.started
                  ++ [Predicted {| columns := []; values := [] |}] |}).
Proof.
  apply (empty_input_answered_500 Sample.started {[ "input" := PList [] ]}).
  reflexivity.
Defined.

(** C4 fails as stated: the empty request is answered neither 200 with an
    empty prediction nor with a client error. *)
Lemma empty_input_not_200_nor_4xx :
  let answer := fst (post_predict (Sample.payload []) Sample.started) in
  ~ (answer = {| status_code := 200; body := Prediction [] |}
     \/ (400 <= status_code answer < 500)%nat).
Proof.
  cbv zeta.
  assert (fst (post_predict (Sample.payload []) Sample.started) = answer_500)
    as -> by (vm_compute; reflexivity).
  cbn. intros [H | H]; [discriminate|lia].
Qed.

(** ** Changing one record of a request *)

Lemma post_predict_ext (p p' : pyval) (s : process) :
  InputData_validate p = InputData_validate p' ->
  post_predict p s = post_predict p' s.
Proof. intros H. unfold post_predict. now rewrite H. Qed.

Lemma items_insert {A} (item : list loc_item -> pyval -> validated A)
    (at_ : list loc_item) (v v' : pyval) (l : list pyval) :
  forall (k i : nat),
  l !! i = Some v ->
  (forall at', item at' v' = item at' v) ->
  items item at_ k (<[ i := v' ]> l) = items item at_ k l.
Proof.
  induction l as [|a l IH]; intros k i Hi Hv; [discriminate|].
  destruct i as [|i]; cbn in Hi.
  - injection Hi as ->. cbn [items]. change (<[0%nat:=v']> (v :: l)) with (v' :: l).
    cbn [items]. now rewrite Hv.
  - change (<[S i:=v']> (a :: l)) with (a :: <[i:=v']> l).
    cbn [items]. now rewrite (IH (S k) i Hi Hv).
Qed.

Lemma InputData_validate_insert (top : gmap string pyval)
    (records : list pyval) (i : nat) (v v' : pyval) :
  top !! "input" = Some (PList records) ->
  records !! i = Some v ->
  (forall at', CarFeatures_validate at' v' = CarFeatures_validate at' v) ->
  InputData_validate (PDict (<[ "input" := PList (<[ i := v' ]> records) ]> top))
  = InputData_validate (PDict top).
Proof.
  intros Hin Hi Hv.
  rewrite (InputData_validate_input top records Hin).
  rewrite (InputData_validate_input _ (<[ i := v' ]> records))
    by apply lookup_insert_eq.
  now rewrite (items_insert _ _ v v' records 0%nat i Hi Hv).
Qed.

Lemma field_insert {A} (validator : pyval -> option A) (e : expected)
    (obj : gmap string pyval) (at_ : list loc_item) (n n' : string)
    (v : pyval) :
  field validator e (<[ n := v ]> obj) at_ n'
  = if String.eqb n n'
    then field validator e {[ n' := v ]} at_ n'
    else field validator e obj at_ n'.
Proof.
  unfold field. destruct (String.eqb_spec n n') as [->|Hne].
  - now rewrite lookup_insert_eq, lookup_singleton_eq.
  - now rewrite lookup_insert_ne.
Qed.

Lemma field_lookup {A} (validator : pyval -> option A) (e : expected)
    (obj : gmap string pyval) (at_ : list loc_item) (n : string) (v : pyval) :
  obj !! n = Some v ->
  field validator e obj at_ n = field validator e {[ n := v ]} at_ n.
Proof. intros H. unfold field. now rewrite H, lookup_singleton_eq. Qed.

Lemma field_singleton {A} (validator : pyval -> option A) (e : expected)
    (at_ : list loc_item) (n : string) (v : pyval) :
  field validator e {[ n := v ]} at_ n
  = match validator v with
    | Some a => Valid a
    | None => Invalid [ {| err_type := type_mismatch e; loc := at_ ++ [Key n] |} ]
    end.
Proof. unfold field. now rewrite lookup_singleton_eq. Qed.

(** A float field holding the string "7" validates as the number 7. *)
Lemma CarFeatures_validate_seven (at_ : list loc_item)
    (obj : gmap string pyval) (name : string) :
  name ∈ ["mileage"; "engine_power"] ->
  obj !! name = Some (PStr "7") ->
  CarFeatures_validate at_ (PDict (<[ name := PFloat (F64.of_Z 7) ]> obj))
  = CarFeatures_validate at_ (PDict obj).
Proof.
  intros Hname Hobj. unfold CarFeatures_validate.
  rewrite !field_insert.
  repeat (apply elem_of_cons in Hname as [->|Hname];
          [decide_names;
           rewrite (field_lookup float_validator _ obj _ _ _ Hobj);
           rewrite !field_singleton;
           change (float_validator (PStr "7")) with (Some (F64.of_Z 7));
           reflexivity|]).
  inversion Hname.
Qed.

(** C5, as amended.  A float field supplied as the string "7" is not
    refused: the string is read as the number 7.0, and the request is
    answered exactly as the request that holds the number 7.0 in its
    place, whichever record and whichever of the two float fields it is,
    and whatever else the request holds. *)
Theorem float_field_string_parsed (s : process) (top : gmap string pyval)
    (records : list pyval) (i : nat) (obj : gmap string pyval)
    (name : string) :
  name ∈ ["mileage"; "engine_power"] ->
  top !! "input" = Some (PList records) ->
  records !! i = Some (PDict obj) ->
  obj !! name = Some (PStr "7") ->
  float_validator (PStr "7") = Some (F64.of_Z 7)
  /\ InputData_validate (PDict top)
     = InputData_validate
         (PDict (<[ "input" :=
                     PList (<[ i := PDict (<[ name := PFloat (F64.of_Z 7) ]> obj) ]>
                              records) ]> top))
  /\ post_predict (PDict top) s
     = post_predict
         (PDict (<[ "input" :=
                     PList (<[ i := PDict (<[ name := PFloat (F64.of_Z 7) ]> obj) ]>
                              records) ]> top)) s.
Proof.
  intros Hname Hin Hi Hobj.
  assert (InputData_validate (PDict top)
          = InputData_validate
              (PDict (<[ "input" :=
                          PList (<[ i := PDict (<[ name := PFloat (F64.of_Z 7) ]> obj) ]>
                                   records) ]> top))) as Hsame.
  { symmetry.
    apply (InputData_validate_insert top records i (PDict obj) _ Hin Hi).
    intros at'. now apply CarFeatures_validate_seven. }
  split; [reflexivity|]. split; [exact Hsame|].
  now apply post_predict_ext.
Qed.

Lemma float_field_string_parsed_witness :
  let obj := <[ "mileage" := PStr "7" ]> Sample.car in
  let top : gmap string pyval := {[ "input" := PList [PDict obj] ]} in
  float_validator (PStr "7") = Some (F64.of_Z 7)
  /\ InputData_validate (PDict top)
     = InputData_validate
         (PDict (<[ "input" :=
                     PList (<[ 0%nat := PDict (<[ "mileage" := PFloat (F64.of_Z 7) ]> obj) ]>
                              [PDict obj]) ]> top))
  /\ post_predict (PDict top) Sample.started
     = post_predict
         (PDict (<[ "input" :=
                     PList (<[ 0%nat := PDict (<[ "mileage" := PFloat (F64.of_Z 7) ]> obj) ]>
                              [PDict obj]) ]> top)) Sample.started.
Proof.
  cbv zeta.
  apply (float_field_string_parsed Sample.started
           {[ "input" := PList [PDict (<[ "mileage" := PStr "7" ]> Sample.car)] ]}
           [PDict (<[ "mileage" := PStr "7" ]> Sample.car)] 0
           (<[ "mileage" := PStr "7" ]> Sample.car) "mileage").
  - repeat constructor.
  - reflexivity.
  - reflexivity.
  - vm_compute. reflexivity.
Defined.

(** C5 fails as stated: the request whose mileage is the string "7" is
    not refused; it validates to a record whose mileage is 7.0 and is
    answered 200. *)
Lemma string_seven_accepted :
  let payload :=
    Sample.payload [PDict (<[ "mileage" := PStr "7" ]> Sample.car)] in
  (exists r, InputData_validate payload = Valid {| input := [r] |}
             /\ mileage r = F64.of_Z 7)
  /\ status_code (fst (post_predict payload Sample.started)) = 200%nat.
Proof.
  cbv zeta. split.
  - eexists. split; [vm_compute; reflexivity|reflexivity].
  - vm_compute. reflexivity.
Qed.

(** ** Extra fields *)

Lemma field_without_extras {A} (validator : pyval -> option A) (e : expected)
    (obj : gmap string pyval) (at_ : list loc_item) (name : string) :
  Is_true (mem name (map fst CarFeatures_fields)) ->
  field validator e (filter declared obj) at_ name
  = field validator e obj at_ name.
Proof.
  intros H. unfold field. rewrite map_lookup_filter.
  destruct (obj !! name) as [v|]; [|reflexivity].
  cbn. now rewrite option_guard_True.
Qed.

Lemma CarFeatures_validate_without_extras (at_ : list loc_item) (v : pyval) :
  CarFeatures_validate at_ (without_extras v) = CarFeatures_validate at_ v.
Proof.
  destruct v; try reflexivity. cbn [without_extras].
  unfold CarFeatures_validate.
  rewrite !field_without_extras by exact I. reflexivity.
Qed.

Lemma items_map {A} (item : list loc_item -> pyval -> validated A)
    (g : pyval -> pyval) (at_ : list loc_item) (l : list pyval) :
  (forall at' v, item at' (g v) = item at' v) ->
  forall k, items item at_ k (map g l) = items item at_ k l.
Proof.
  intros H. induction l as [|v l IH]; intros k; [reflexivity|].
  cbn [map items]. now rewrite H, IH.
Qed.

(** C10.  When the records of a request, their undeclared fields taken
    away, are valid, so is the request as sent, with the same validated
    records; it gets the same answer as the request without the extra
    fields, and the frame handed to the model is built from the validated
    records alone. *)
Theorem extra_fields_ignored (s : process) (top : gmap string pyval)
    (records : list pyval) (data : InputData) :
  let request l := PDict (<[ "input" := PList l ]> top) in
  InputData_validate (request (map without_extras records)) = Valid data ->
  InputData_validate (request records) = Valid data
  /\ post_predict (request records) s
     = post_predict (request (map without_extras records)) s
  /\ log (snd (post_predict (request records) s))
     = log s ++ [Predicted (DataFrame_from_records
                              (map CarFeatures_dict (input data)))].
Proof.
  intros request Hv.
  assert (InputData_validate (request records)
          = InputData_validate (request (map without_extras records))) as E.
  { unfold request.
    rewrite !(InputData_validate_input _ _ (lookup_insert_eq _ _ _)).
    now rewrite (items_map _ _ _ _ CarFeatures_validate_without_extras). }
  split; [now rewrite E|]. split; [now apply post_predict_ext|].
  unfold post_predict. rewrite E, Hv.
  unfold predict, and_then, model_predict, ret.
  destruct (Pipeline_predict _ _) as [ps|e];
    [destruct (forallb F64.isfinite ps)|]; reflexivity.
Qed.

Lemma extra_fields_ignored_witness :
  let records :=
    [PDict (<[ "owner" := PStr "someone" ]> (<[ "year" := PInt 2019 ]> Sample.car))] in
  let request l := PDict (<[ "input" := PList l ]> ∅) in
  InputData_validate (request records)
  = InputData_validate (Sample.payload [PDict Sample.car])
  /\ post_predict (request records) Sample.started
     = post_predict (request (map without_extras records)) Sample.started.
Proof.
  cbv zeta.
  destruct (extra_fields_ignored Sample.started ∅
              [PDict (<[ "owner" := PStr "someone" ]>
                        (<[ "year" := PInt 2019 ]> Sample.car))]
              {| input :=
                   [ {| mileage := F64.of_Z 7;
                        engine_power := F64.of_decimal false 27 (-2);
                        model_key := "Citroën"; fuel := "diesel";
                        paint_color := "black"; car_type := "sedan";
                        private_parking_available := true; has_gps := true;
                        has_air_conditioning := false; automatic_car := false;
                        has_getaround_connect := true;
                        has_speed_regulator := false;
                        winter_tires := true |} ] |})
    as (Hv & Ha & _).
  - vm_compute. reflexivity.
  - split; [|exact Ha]. rewrite Hv. vm_compute. reflexivity.
Defined.

(** ** The columns of the frame *)

Lemma column_frame (records : list CarFeatures) (j : nat) :
  column (frame records) j
  = map (fun r => nth j (row r) (VFloat F64.nan)) records.
Proof. unfold column. now rewrite frame_values, map_map. Qed.

Lemma forallb_ext {A} (p q : A -> bool) (l : list A) :
  (forall a, p a = q a) -> forallb p l = forallb q l.
Proof. intros H. induction l as [|a l IH]; cbn; [reflexivity|]. now rewrite H, IH. Qed.

Lemma infer_dtype_floats {A} (g : A -> value) (l : list A) :
  l <> [] -> (forall a, is_float (g a) = true) ->
  infer_dtype (map g l) = float64.
Proof.
  intros Hne Hg. destruct l as [|a l]; [congruence|].
  cbn [map]. unfold infer_dtype. rewrite <- (map_cons g), forallb_map.
  now rewrite (forallb_ext _ (fun _ => true) _ Hg), forallb_const.
Qed.

Lemma infer_dtype_bools {A} (g : A -> value) (l : list A) :
  l <> [] -> (forall a, is_bool (g a) = true) ->
  (forall a, is_float (g a) = false) ->
  infer_dtype (map g l) = bool_.
Proof.
  intros Hne Hg Hg'. destruct l as [|a l]; [congruence|].
  cbn [map]. unfold infer_dtype. rewrite <- (map_cons g), !forallb_map.
  rewrite (forallb_ext _ (fun _ => false) _ Hg'), forallb_const by assumption.
  now rewrite (forallb_ext _ (fun _ => true) _ Hg), forallb_const.
Qed.

Lemma infer_dtype_strings {A} (g : A -> value) (l : list A) :
  l <> [] -> (forall a, is_bool (g a) = false) ->
  (forall a, is_float (g a) = false) ->
  infer_dtype (map g l) = object.
Proof.
  intros Hne Hg Hg'. destruct l as [|a l]; [congruence|].
  cbn [map]. unfold infer_dtype. rewrite <- (map_cons g), !forallb_map.
  rewrite (forallb_ext _ (fun _ => false) _ Hg'), forallb_const by assumption.
  now rewrite (forallb_ext _ (fun _ => false) _ Hg), forallb_const.
Qed.

(** ** Categories never seen in training *)



Lemma index_of_None (v : string) (cats : list string) :
  v ∉ cats -> index_of v cats = None.
Proof.
  induction cats as [|c cats IH]; intros H; [reflexivity|]. cbn.
  apply not_elem_of_cons in H as [Hne Hnot].
  destruct (String.eqb_spec v c); [congruence|]. now rewrite IH.
Qed.









(** * Further properties *)

(** ** Requests and their records *)

(** A request is valid exactly when each of its records is valid where it
    stands; the validated records come in the order of the request. *)
Theorem request_valid_iff_records_valid (top : gmap string pyval)
    (records : list pyval) (rs : list CarFeatures) :
  top !! "input" = Some (PList records) ->
  InputData_validate (PDict top) = Valid {| input := rs |}
  <-> Forall2 (fun v r => forall at', CarFeatures_validate at' v = Valid r)
              records rs.
Proof.
  intros Hin. split.
  - intros H. apply (InputData_Valid_inv top records _ Hin H).
  - intros H. now apply InputData_Valid with (l := records).
Qed.

Lemma request_valid_iff_records_valid_witness :
  InputData_validate (Sample.payload [PDict Sample.car; PDict Sample.car])
  = Valid {| input :=
               [ {| mileage := F64.of_Z 7;
                    engine_power := F64.of_decimal false 27 (-2);
                    model_key := "Citroën"; fuel := "diesel";
                    paint_color := "black"; car_type := "sedan";
                    private_parking_available := true; has_gps := true;
                    has_air_conditioning := false; automatic_car := false;
                    has_getaround_connect := true;
                    has_speed_regulator := false; winter_tires := true |};
                 {| mileage := F64.of_Z 7;
                    engine_power := F64.of_decimal false 27 (-2);
                    model_key := "Citroën"; fuel := "diesel";
                    paint_color := "black"; car_type := "sedan";
                    private_parking_available := true; has_gps := true;
                    has_air_conditioning := false; automatic_car := false;
                    has_getaround_connect := true;
                    has_speed_regulator := false; winter_tires := true |} ] |}
  <-> Forall2 (fun v r => forall at', CarFeatures_validate at' v = Valid r)
              [PDict Sample.car; PDict Sample.car]
              [ {| mileage := F64.of_Z 7;
                   engine_power := F64.of_decimal false 27 (-2);
                   model_key := "Citroën"; fuel := "diesel";
                   paint_color := "black"; car_type := "sedan";
                   private_parking_available := true; has_gps := true;
                   has_air_conditioning := false; automatic_car := false;
                   has_getaround_connect := true;
                   has_speed_regulator := false; winter_tires := true |};
                 {| mileage := F64.of_Z 7;
                    engine_power := F64.of_decimal false 27 (-2);
                    model_key := "Citroën"; fuel := "diesel";
                    paint_color := "black"; car_type := "sedan";
                    private_parking_available := true; has_gps := true;
                    has_air_conditioning := false; automatic_car := false;
                    has_getaround_connect := true;
                    has_speed_regulator := false; winter_tires := true |} ].
Proof.
  apply (request_valid_iff_records_valid
           {[ "input" := PList [PDict Sample.car; PDict Sample.car] ]}).
  reflexivity.
Defined.

(** ** The service across requests *)

Lemma handle_answer (r : request) (s s' : process) :
  model s = model s' -> fst (handle r s) = fst (handle r s').
Proof.
  intros Hm. destruct r; cbn [handle fst]; try reflexivity.
  now apply post_predict_answer.
Qed.

(** The service keeps nothing from one request to the next: in any run,
    every request gets the answer it would get as the first request, and
    there are as many answers as requests. *)
Theorem serve_stateless (rs : list request) :
  forall (s : process),
  length (fst (serve rs s)) = length rs
  /\ forall i r, rs !! i = Some r ->
       fst (serve rs s) !! i = Some (fst (handle r s)).
Proof.
  induction rs as [|r0 rs IH]; intros s; cbn [serve].
  - split; [reflexivity|]. intros i r H. discriminate.
  - pose proof (handle_state r0 s) as [Hm _].
    destruct (handle r0 s) as [a s'] eqn:Eh. cbn [snd] in Hm.
    destruct (IH s') as [Hlen Hnth].
    destruct (serve rs s') as [answers s''] eqn:Es. cbn [fst] in *.
    split; [cbn; now rewrite Hlen|].
    intros [|i] r Hi; cbn in Hi.
    + injection Hi as <-. now rewrite Eh.
    + change ((a :: answers) !! S i) with (answers !! i).
      rewrite (Hnth i r Hi). f_equal. now apply handle_answer.
Qed.

Lemma post_predict_log (payload : pyval) (s : process) :
  log (snd (post_predict payload s)) = log s ++ calls_of (POST_predict payload).
Proof.
  unfold post_predict, calls_of.
  destruct (InputData_validate payload) as [data|es]; cbn [snd].
  - unfold predict, and_then, model_predict, ret.
    destruct (Pipeline_predict _ _) as [ps|e];
      [destruct (forallb F64.isfinite ps)|]; reflexivity.
  - now rewrite app_nil_r.
Qed.

(** The model is called once for every prediction request with a valid
    body, on the frame of its records, and never otherwise: after a run
    the log is the log before it followed by these calls, in the order of
    the requests. *)
Theorem serve_log (rs : list request) :
  forall (s : process),
  log (snd (serve rs s)) = log s ++ concat (map calls_of rs).
Proof.
  induction rs as [|r rs IH]; intros s; cbn [serve map concat].
  - now rewrite app_nil_r.
  - assert (log (snd (handle r s)) = log s ++ calls_of r) as Hr.
    { destruct r; cbn [handle snd calls_of]; rewrite ?app_nil_r;
        [reflexivity|reflexivity|apply post_predict_log]. }
    destruct (handle r s) as [a s']. cbn [snd] in Hr.
    specialize (IH s'). destruct (serve rs s') as [answers s''].
    cbn [snd] in *. now rewrite IH, Hr, app_assoc.
Qed.

Lemma forallb_elem_false {A} (p : A -> bool) (l : list A) (x : A) :
  x ∈ l -> p x = false -> forallb p l = false.
Proof.
  intros Hx Hp. induction l as [|a l IH]; [inversion Hx|]. cbn.
  apply elem_of_cons in Hx as [<- | Hx].
  - now rewrite Hp.
  - rewrite (IH Hx). apply andb_false_r.
Qed.

(** ** Values the pipeline refuses *)

(** A valid request that holds an infinite mileage or engine power in one
    of its records is answered 500 by a pipeline of the training script:
    the scaler refuses the frame. *)
Theorem infinite_value_answered_500 (fit : Training.Fitted) (s : process)
    (payload : pyval) (data : InputData) (r : CarFeatures) :
  model s = Training.pipeline fit ->
  InputData_validate payload = Valid data ->
  r ∈ input data ->
  F64.isinf (mileage r) = true \/ F64.isinf (engine_power r) = true ->
  fst (post_predict payload s)
  = {| status_code := 500; body := InternalServerError |}.
Proof.
  intros Hm Hv Hr Hinf.
  assert (input data <> []) as Hne.
  { intros E. rewrite E in Hr. inversion Hr. }
  rewrite (post_predict_Valid fit s payload data Hm Hv Hne). cbn [fst].
  rewrite (forallb_elem_false (scored fit) (input data) r Hr); [reflexivity|].
  unfold scored, accepted. cbn [numeric forallb].
  destruct Hinf as [H | H].
  - destruct (mileage r); try discriminate. reflexivity.
  - destruct (engine_power r); try discriminate.
    now rewrite !andb_false_r.
Qed.

Lemma infinite_value_answered_500_witness :
  fst (post_predict
         (Sample.payload
            [PDict Sample.car;
             PDict (<[ "engine_power" := PStr "-inf" ]> Sample.car)])
         Sample.started)
  = {| status_code := 500; body := InternalServerError |}.
Proof.
  eapply (infinite_value_answered_500 Sample.fit Sample.started).
  - reflexivity.
  - vm_compute. reflexivity.
  - apply list_elem_of_further, list_elem_of_here.
  - right. reflexivity.
Defined.

(** ** What the validation reports *)

Lemma elem_of_errors_of_field {A} (validator : pyval -> option A)
    (ty : expected) (obj : gmap string pyval) (at_ : list loc_item)
    (name : string) (e : ErrorDetails) :
  e ∈ errors_of (field validator ty obj at_ name)
  <-> loc e = at_ ++ [Key name]
      /\ ((obj !! name = None /\ err_type e = missing)
          \/ (exists x, obj !! name = Some x /\ validator x = None
                        /\ err_type e = type_mismatch ty)).
Proof.
  unfold field. destruct (obj !! name) as [x|] eqn:Hx.
  - destruct (validator x) eqn:Hv; cbn [errors_of].
    + split; [intros H; inversion H|].
      intros [_ [[H _] | (y & Hy & Hn & _)]]; [discriminate|].
      injection Hy as <-. congruence.
    + rewrite list_elem_of_singleton. split.
      * intros ->. cbn. split; [reflexivity|]. right. eauto.
      * intros [Hl [[H _] | (y & _ & _ & Ht)]]; [discriminate|].
        destruct e as [t l]. cbn in *. congruence.
  - cbn [errors_of]. rewrite list_elem_of_singleton. split.
    + intros ->. cbn. split; [reflexivity|]. now left.
    + intros [Hl [[_ Ht] | (y & Hy & _)]]; [|discriminate].
      destruct e as [t l]. cbn in *. congruence.
Qed.

Lemma takes_float (x : pyval) :
  float_validator x = None <-> takes a_float x = false.
Proof. cbn. destruct (float_validator x); split; congruence. Qed.

Lemma takes_string (x : pyval) :
  str_validator x = None <-> takes a_string x = false.
Proof. cbn. destruct (str_validator x); split; congruence. Qed.

Lemma takes_bool (x : pyval) :
  bool_validator x = None <-> takes a_bool x = false.
Proof. cbn. destruct (bool_validator x); split; congruence. Qed.

Lemma elem_of_errors_of_CarFeatures (at_ : list loc_item) (v : pyval)
    (e : ErrorDetails) :
  e ∈ errors_of (CarFeatures_validate at_ v) <-> flaw at_ v e.
Proof.
  destruct v; cbn [CarFeatures_validate errors_of flaw];
    try apply list_elem_of_singleton.
  rewrite !errors_of_ap. cbn [errors_of app].
  rewrite !elem_of_app, !elem_of_errors_of_field.
  setoid_rewrite takes_float. setoid_rewrite takes_string.
  setoid_rewrite takes_bool.
  split.
  - intros H.
    repeat (destruct H as [H | H];
            [|destruct H as [Hl H]; eexists _, _;
              split; [|split; [exact Hl|exact H]];
              cbn; repeat constructor]).
    destruct H as [Hl H]. eexists _, _.
    split; [|split; [exact Hl|exact H]]. cbn. repeat constructor.
  - intros (name & ty & Hin & Hl & H).
    cbn [CarFeatures_fields] in Hin.
    repeat (apply elem_of_cons in Hin as [Hin | Hin];
            [injection Hin as -> ->; tauto|]).
    inversion Hin.
Qed.

Lemma elem_of_errors_of_items {A}
    (item : list loc_item -> pyval -> validated A) (at_ : list loc_item)
    (e : ErrorDetails) (l : list pyval) :
  forall (k : nat),
  e ∈ errors_of (items item at_ k l)
  <-> exists i v, l !! i = Some v
                  /\ e ∈ errors_of (item (at_ ++ [Index (k + i)]) v).
Proof.
  induction l as [|v' l IH]; intros k; cbn [items].
  - cbn. split; [intros H; inversion H|intros (i & v & H & _); discriminate].
  - rewrite !errors_of_ap. cbn [errors_of app]. rewrite elem_of_app, IH.
    split.
    + intros [H | (i & v & Hi & H)].
      * exists 0%nat, v'. now rewrite Nat.add_0_r.
      * exists (S i), v. split; [exact Hi|].
        now replace (k + S i)%nat with (S k + i)%nat by lia.
    + intros ([|i] & v & Hi & H); cbn in Hi.
      * left. injection Hi as ->. now rewrite Nat.add_0_r in H.
      * right. exists i, v. split; [exact Hi|].
        now replace (S k + i)%nat with (k + S i)%nat by lia.
Qed.

(** The errors of a request are exactly the flaws of its records: every
    error sits at a record that is no dictionary, or at a declared field
    that is missing or holds a value of the wrong type, and every such
    flaw is reported; undeclared fields are never reported.  A request
    with a flaw is answered 422 with these errors. *)
Theorem errors_are_the_flaws (s : process) (top : gmap string pyval)
    (records : list pyval) :
  top !! "input" = Some (PList records) ->
  let errors := errors_of (InputData_validate (PDict top)) in
  (forall e, e ∈ errors
             <-> exists i v, records !! i = Some v
                             /\ flaw [Key "body"; Key "input"; Index i] v e)
  /\ (errors <> [] ->
      post_predict (PDict top) s
      = ({| status_code := 422; body := Detail errors |}, s)).
Proof.
  intros Hin errors. subst errors.
  rewrite (InputData_validate_input _ _ Hin), errors_of_ap.
  cbn [errors_of app]. split.
  - intros e. rewrite elem_of_errors_of_items.
    split; intros (i & v & Hi & H); exists i, v; (split; [exact Hi|]);
      now apply elem_of_errors_of_CarFeatures.
  - intros Hne. unfold post_predict.
    rewrite (InputData_validate_input _ _ Hin).
    destruct (items _ _ _ records) as [rs|es]; cbn in Hne |- *;
      [congruence|reflexivity].
Qed.

Lemma errors_are_the_flaws_witness :
  let records := [PDict Sample.car; PList []] in
  let errors := errors_of (InputData_validate (Sample.payload records)) in
  (forall e, e ∈ errors
             <-> exists i v, records !! i = Some v
                             /\ flaw [Key "body"; Key "input"; Index i] v e)
  /\ (errors <> [] ->
      post_predict (Sample.payload records) Sample.started
      = ({| status_code := 422; body := Detail errors |}, Sample.started)).
Proof.
  cbv zeta.
  apply (errors_are_the_flaws Sample.started
           {[ "input" := PList [PDict Sample.car; PList []] ]}).
  reflexivity.
Defined.

(** ** The dashboard as a client of the service *)

Lemma dashboard_record_valid (at_ : list loc_item) (f : Dashboard.form) :
  CarFeatures_validate at_ (Dashboard.sent_dict (Dashboard.input_data f))
  = Valid (Dashboard.features f).
Proof. destruct f. vm_compute. reflexivity. Qed.

Lemma dashboard_body_valid (f : Dashboard.form) :
  InputData_validate (Dashboard.request_json f)
  = Valid {| input := [Dashboard.features f] |}.
Proof.
  apply InputData_Valid
    with (l := [Dashboard.sent_dict (Dashboard.input_data f)]).
  - apply lookup_singleton_eq.
  - constructor; [intros at'; apply dashboard_record_valid|constructor].
Qed.

(** The request the prediction tab sends is always valid: the service
    reads from it the very values of the form, and never answers 422,
    whatever model it holds. *)
Theorem dashboard_request_valid (s : process) (f : Dashboard.form) :
  Dashboard.entered f = true ->
  InputData_validate (Dashboard.request_json f)
  = Valid {| input := [Dashboard.features f] |}
  /\ status_code (fst (post_predict (Dashboard.request_json f) s)) <> 422%nat.
Proof.
  intros _. pose proof (dashboard_body_valid f) as Hv.
  split; [exact Hv|].
  unfold post_predict. rewrite Hv.
  destruct (predict _ s) as [[ps|e] s'];
    [destruct (forallb F64.isfinite ps)|]; cbn; discriminate.
Qed.

(** Against a pipeline of the training script the prediction tab shows
    either one finite price, the one the service has for the form's
    values, or the status 500; it never fails to find a prediction in a
    200 answer. *)
Theorem dashboard_shows_price_or_500 (fit : Training.Fitted) (s : process)
    (f : Dashboard.form) :
  model s = Training.pipeline fit ->
  Dashboard.entered f = true ->
  let response := fst (post_predict (Dashboard.request_json f) s) in
  (Dashboard.show response = Dashboard.success (price fit (Dashboard.features f))
   /\ F64.isfinite (price fit (Dashboard.features f)) = true
   /\ response = {| status_code := 200;
                    body := Prediction [price fit (Dashboard.features f)] |})
  \/ (Dashboard.show response = Dashboard.api_error 500
      /\ response = {| status_code := 500; body := InternalServerError |}).
Proof.
  intros Hm Hf response. subst response.
  pose proof (dashboard_body_valid f) as Hv.
  rewrite (post_predict_Valid fit s _ _ Hm Hv) by discriminate.
  cbn [fst input forallb map]. rewrite andb_true_r.
  destruct (scored fit (Dashboard.features f)) eqn:Hs.
  - left. unfold scored in Hs. apply andb_prop in Hs as [_ Hfin].
    now repeat split.
  - right. now split.
Qed.

Lemma dashboard_shows_price_or_500_witness :
  let f :=
    {| Dashboard.mileage := F64.of_Z 7;
       Dashboard.engine_power := F64.of_decimal false 27 (-2);
       Dashboard.model_key := "Citroën"; Dashboard.fuel := "diesel";
       Dashboard.paint_color := "black"; Dashboard.car_type := "sedan";
       Dashboard.private_parking_available := true;
       Dashboard.has_gps := true;
       Dashboard.has_air_conditioning := false;
       Dashboard.automatic_car := false;
       Dashboard.has_getaround_connect := true;
       Dashboard.has_speed_regulator := false;
       Dashboard.winter_tires := true |} in
  let response :=
    fst (post_predict (Dashboard.request_json f) Sample.started) in
  (Dashboard.show response
   = Dashboard.success (price Sample.fit (Dashboard.features f))
   /\ F64.isfinite (price Sample.fit (Dashboard.features f)) = true
   /\ response = {| status_code := 200;
                    body := Prediction [price Sample.fit (Dashboard.features f)] |})
  \/ (Dashboard.show response = Dashboard.api_error 500
      /\ response = {| status_code := 500; body := InternalServerError |}).
Proof.
  cbv zeta. apply (dashboard_shows_price_or_500 Sample.fit Sample.started).
  - reflexivity.
  - vm_compute. reflexivity.
Defined.

Lemma dashboard_request_valid_witness :
  let f :=
    {| Dashboard.mileage := F64.of_Z 150;
       Dashboard.engine_power := F64.of_Z 1;
       Dashboard.model_key := "Renault"; Dashboard.fuel := "petrol";
       Dashboard.paint_color := "white"; Dashboard.car_type := "suv";
       Dashboard.private_parking_available := false;
       Dashboard.has_gps := false;
       Dashboard.has_air_conditioning := true;
       Dashboard.automatic_car := true;
       Dashboard.has_getaround_connect := false;
       Dashboard.has_speed_regulator := true;
       Dashboard.winter_tires := false |} in
  InputData_validate (Dashboard.request_json f)
  = Valid {| input := [Dashboard.features f] |}
  /\ status_code (fst (post_predict (Dashboard.request_json f) Sample.started))
     <> 422%nat.
Proof.
  cbv zeta. apply dashboard_request_valid. vm_compute. reflexivity.
Defined.

(** ** The documentation and the validation *)

(** A car object that is as [custom_docs] describes it, every required
    name present with a value of its documented type, validates. *)
Lemma documented_record_valid (obj : gmap string pyval) :
  Docs.conforms obj = true ->
  exists r, forall at_, CarFeatures_validate at_ (PDict obj) = Valid r.
Proof.
  intros H. unfold Docs.conforms in H.
  cbn [Docs.required Docs.properties forallb fst snd] in H.
  repeat match goal with
         | E : _ && _ = true |- _ => apply andb_prop in E as [? ?]
         end.
  repeat match goal with
         | E : match obj !! ?n with _ => _ end = true |- _ =>
             let v := fresh "v" in
             let L := fresh "L" in
             destruct (obj !! n) as [v|] eqn:L; [|discriminate E]; clear E
         end.
  repeat match goal with
         | E : Docs.has_type _ ?v = true |- _ =>
             destruct v; try discriminate E; clear E
         end.
  eexists. intros at_. unfold CarFeatures_validate, field.
  repeat match goal with L : obj !! _ = Some _ |- _ => rewrite L; clear L end.
  cbn. reflexivity.
Qed.

(** A request whose records are all as the documentation describes them
    is valid, with one validated record per record sent. *)
Theorem documented_contract_sufficient (top : gmap string pyval)
    (objs : list (gmap string pyval)) :
  top !! "input" = Some (PList (map PDict objs)) ->
  forallb Docs.conforms objs = true ->
  exists data, InputData_validate (PDict top) = Valid data
               /\ length (input data) = length objs.
Proof.
  intros Hin H.
  assert (exists rs,
             Forall2 (fun v r => forall at', CarFeatures_validate at' v = Valid r)
                     (map PDict objs) rs) as [rs HF].
  { clear Hin. induction objs as [|obj objs IH]; [exists []; constructor|].
    cbn in H. apply andb_prop in H as [Ho Hs].
    destruct (documented_record_valid obj Ho) as [r Hr].
    destruct (IH Hs) as [rs Hrs].
    exists (r :: rs). now constructor. }
  exists {| input := rs |}. split.
  - now apply InputData_Valid with (l := map PDict objs).
  - cbn. rewrite <- (Forall2_length _ _ _ HF). apply length_map.
Qed.

Lemma documented_contract_sufficient_witness :
  exists data,
    InputData_validate
      (PDict {[ "input" :=
                  PList (map PDict [list_to_map (map (fun p => (fst p, snd (snd p)))
                                                     Docs.properties)]) ]})
    = Valid data
    /\ length (input data) = 1%nat.
Proof.
  apply (documented_contract_sufficient _
           [list_to_map (map (fun p => (fst p, snd (snd p))) Docs.properties)]).
  - reflexivity.
  - vm_compute. reflexivity.
Defined.

(** ** The routes *)

(** No request reaches [custom_docs]: the application registered its own
    page at /docs when it was built, before the decorator added the
    second route for that path, and the router takes the first route that
    matches.  GET /docs is answered by the built-in page; the two other
    functions are reached at their paths. *)
Theorem custom_docs_never_reached (method p : string) :
  Routing.dispatch Routing.routes method p <> Routing.Full Routing.custom_docs
  /\ Routing.dispatch Routing.routes "GET" "/docs"
     = Routing.Full Routing.swagger_ui_html
  /\ Routing.dispatch Routing.routes "GET" "/" = Routing.Full Routing.root
  /\ Routing.dispatch Routing.routes "POST" "/predict"
     = Routing.Full Routing.predict.
Proof.
  split; [|repeat split; reflexivity].
  intros Hd. unfold Routing.dispatch in Hd.
  destruct (List.find (Routing.full method p) Routing.routes) as [r|] eqn:Hf.
  2:{ destruct (existsb _ _); [discriminate|].
      destruct (_ && _); discriminate. }
  injection Hd as He.
  destruct (find_some _ _ Hf) as [Hin Hfull].
  cbn in Hin.
  repeat (destruct Hin as [<- | Hin]; [try discriminate He|]);
    [|contradiction].
  unfold Routing.full in Hfull. cbn in Hfull.
  apply andb_prop in Hfull as [Hp Hm].
  rewrite orb_false_r in Hm.
  apply String.eqb_eq in Hp, Hm. subst p method.
  vm_compute in Hf. discriminate Hf.
Qed.

(** ** The order of the columns *)

Lemma index_of_Some (c : string) (cols : list string) (k : nat) :
  index_of c cols = Some k -> (k < length cols)%nat /\ nth k cols "" = c.
Proof.
  revert k. induction cols as [|c' cols IH]; intros k H; [discriminate|].
  cbn in H. destruct (String.eqb_spec c c') as [->|Hne].
  - injection H as <-. cbn. split; [lia|reflexivity].
  - destruct (index_of c cols) as [k'|]; [|discriminate].
    injection H as <-. destruct (IH k' eq_refl) as [Hlt Hn].
    cbn. split; [lia|exact Hn].
Qed.

Lemma index_of_None_inv (c : string) (cols : list string) :
  index_of c cols = None -> ~ In c cols.
Proof.
  induction cols as [|c' cols IH]; intros H; [intros []|].
  cbn in H. destruct (String.eqb_spec c c') as [->|Hne]; [discriminate|].
  destruct (index_of c cols); [discriminate|].
  intros [E | Hin]; [congruence|]. now apply IH.
Qed.

Lemma index_of_nth (cols : list string) (k : nat) :
  List.NoDup cols -> (k < length cols)%nat ->
  index_of (nth k cols "") cols = Some k.
Proof.
  intros Hnd. revert k. induction Hnd as [|c cols Hc Hnd IH]; intros k Hk.
  - cbn in Hk. lia.
  - destruct k as [|k]; cbn.
    + now rewrite String.eqb_refl.
    + cbn in Hk. destruct (String.eqb_spec (nth k cols "") c) as [E|Hne].
      * exfalso. apply Hc. rewrite <- E. apply nth_In. lia.
      * rewrite IH by lia. reflexivity.
Qed.

Lemma map_nth_seq (cols : list string) :
  map (fun j => nth j cols "") (seq 0 (length cols)) = cols.
Proof.
  induction cols as [|c cols IH]; [reflexivity|].
  cbn [length seq map nth]. f_equal.
  rewrite <- seq_shift, map_map. exact IH.
Qed.

Section Reordered.

Variable cols : list string.
Variable p : list nat.
Hypothesis cols_NoDup : List.NoDup cols.
Hypothesis p_perm : Permutation p (seq 0 (length cols)).

Let cols' : list string := map (fun j => nth j cols "") p.

Lemma reordered_perm : Permutation cols' cols.
Proof.
  unfold cols'.
  transitivity (map (fun j => nth j cols "") (seq 0 (length cols))).
  - now apply Permutation_map.
  - now rewrite map_nth_seq.
Qed.

Lemma p_bound (k : nat) : (k < length p)%nat -> (nth k p 0 < length cols)%nat.
Proof.
  intros Hk. assert (In (nth k p 0%nat) (seq 0 (length cols))) as H.
  { eapply Permutation_in; [exact p_perm|]. now apply nth_In. }
  apply in_seq in H. lia.
Qed.

Lemma index_of_reordered (c : string) :
  match index_of c cols' with
  | Some k' => (k' < length p)%nat /\ index_of c cols = Some (nth k' p 0%nat)
  | None => index_of c cols = None
  end.
Proof.
  destruct (index_of c cols') as [k'|] eqn:E.
  - apply index_of_Some in E as [Hlt Hn].
    unfold cols' in Hlt, Hn. rewrite length_map in Hlt.
    split; [exact Hlt|].
    rewrite (nth_indep _ "" (nth 0 cols "")) in Hn
      by now rewrite length_map.
    rewrite (map_nth (fun j => nth j cols "")) in Hn.
    rewrite <- Hn. apply index_of_nth; [exact cols_NoDup|].
    now apply p_bound.
  - apply index_of_None_inv in E.
    destruct (index_of c cols) as [k|] eqn:E'; [|reflexivity].
    exfalso. apply E. apply index_of_Some in E' as [Hlt Hn].
    eapply Permutation_in; [symmetry; apply reordered_perm|].
    rewrite <- Hn. now apply nth_In.
Qed.

Lemma mapM_index_of_reordered (names : list string) :
  match mapM (fun c => index_of c cols') names with
  | Some js' =>
      Forall (fun k' => (k' < length p)%nat) js'
      /\ mapM (fun c => index_of c cols) names
         = Some (map (fun k' => nth k' p 0%nat) js')
  | None => mapM (fun c => index_of c cols) names = None
  end.
Proof.
  induction names as [|c names IH]; cbn [mapM].
  - cbn. split; [constructor|reflexivity].
  - pose proof (index_of_reordered c) as Hc.
    destruct (index_of c cols') as [k'|]; cbn.
    + destruct Hc as [Hlt ->]. cbn.
      destruct (mapM (fun c => index_of c cols') names) as [js'|]; cbn.
      * destruct IH as [HF ->]. cbn. split; [now constructor|reflexivity].
      * now rewrite IH.
    + now rewrite Hc.
Qed.

Lemma mem_reordered (c : string) : mem c cols' = mem c cols.
Proof.
  unfold mem. apply eq_true_iff_eq. rewrite !existsb_exists.
  split; intros (x & Hin & Hx); exists x; (split; [|exact Hx]);
    (eapply Permutation_in; [|exact Hin]);
    [apply reordered_perm|symmetry; apply reordered_perm].
Qed.

End Reordered.

Lemma getitem_reorder (p : list nat) (X : DataFrame) (names : list string) :
  List.NoDup (columns X) ->
  Permutation p (seq 0 (length (columns X))) ->
  getitem (reorder p X) names = getitem X names.
Proof.
  intros Hnd Hp. unfold getitem, reorder. cbn [columns values].
  pose proof (mapM_index_of_reordered (columns X) p Hnd Hp names) as H.
  cbv zeta in H.
  destruct (mapM _ names) as [js'|]; cbn.
  - destruct H as [HF ->]. cbn. f_equal. rewrite map_map.
    apply map_ext. intros row. rewrite map_map.
    apply map_ext_Forall. eapply Forall_impl; [exact HF|].
    intros k' Hk. cbn beta.
    rewrite (nth_indep _ (VFloat F64.nan)
                       (nth 0 row (VFloat F64.nan)))
      by now rewrite length_map.
    rewrite (map_nth (fun j => nth j row (VFloat F64.nan))).
    reflexivity.
  - now rewrite H.
Qed.

Lemma traverse_ext {A B} (f g : A -> outcome B) (l : list A) :
  (forall a, f a = g a) -> traverse f l = traverse g l.
Proof.
  intros H. induction l as [|a l IH]; [reflexivity|].
  cbn. now rewrite H, IH.
Qed.

(** The pipeline finds the columns of a frame by their labels: a frame
    whose columns are put in another order gets the same outcome, the same
    predictions or the same exception, from any pipeline. *)
Theorem column_order_irrelevant (pl : Pipeline) (p : list nat)
    (X : DataFrame) :
  List.NoDup (columns X) ->
  Permutation p (seq 0 (length (columns X))) ->
  Pipeline_predict pl (reorder p X) = Pipeline_predict pl X.
Proof.
  intros Hnd Hp. unfold Pipeline_predict. f_equal.
  unfold ColumnTransformer_transform.
  assert (forall names, select (reorder p X) names = select X names) as Hsel.
  { intros names. unfold select. now rewrite getitem_reorder. }
  rewrite (forallb_ext (fun c => mem c (columns (reorder p X)))
                       (fun c => mem c (columns X)))
    by (intros c; apply (mem_reordered (columns X) p Hp)).
  rewrite (traverse_ext
             (fun t => bind (select (reorder p X) (snd t)) (transform (snd (fst t))))
             (fun t => bind (select X (snd t)) (transform (snd (fst t)))))
    by (intros t; now rewrite Hsel).
  now rewrite Hsel.
Qed.

Lemma column_order_irrelevant_witness :
  let X :=
    DataFrame_from_records
      [CarFeatures_dict
         {| mileage := F64.of_Z 7;
            engine_power := F64.of_decimal false 27 (-2);
            model_key := "Citroën"; fuel := "diesel";
            paint_color := "black"; car_type := "sedan";
            private_parking_available := true; has_gps := true;
            has_air_conditioning := false; automatic_car := false;
            has_getaround_connect := true; has_speed_regulator := false;
            winter_tires := true |}] in
  let p := [2; 0; 1; 3; 4; 5; 6; 7; 8; 9; 10; 11; 12]%nat in
  columns (reorder p X)
  = ["model_key"; "mileage"; "engine_power"; "fuel"; "paint_color";
     "car_type"; "private_parking_available"; "has_gps";
     "has_air_conditioning"; "automatic_car"; "has_getaround_connect";
     "has_speed_regulator"; "winter_tires"]
  /\ Pipeline_predict (Training.pipeline Sample.fit) (reorder p X)
     = Pipeline_predict (Training.pipeline Sample.fit) X.
Proof.
  cbv zeta. split; [reflexivity|].
  apply column_order_irrelevant.
  - cbn. repeat (constructor; [cbn; intuition discriminate|]). constructor.
  - cbn. apply perm_trans with (0 :: 2 :: 1 :: seq 3 10)%nat.
    + apply perm_swap.
    + apply perm_skip, perm_swap.
Defined.

(** ** Unseen categories are all alike *)

Lemma onehot_unseen (cats : list string) (v : string) :
  v ∉ cats -> onehot cats (VStr v) = replicate (length cats) F64.zero.
Proof.
  intros H. unfold onehot, indicators. now rewrite (index_of_None _ _ H).
Qed.

Lemma encoded_unseen (fit : Training.Fitted) (name v v' : string)
    (r : CarFeatures) :
  name ∈ Training.categorical_features ->
  v ∉ vocabulary fit name -> v' ∉ vocabulary fit name ->
  encoded fit (with_category name v r) = encoded fit (with_category name v' r).
Proof.
  intros Hname Hv Hv'. unfold encoded, vocabulary in *.
  change (numeric (with_category name v r)) with (numeric r).
  change (numeric (with_category name v' r)) with (numeric r).
  change (flags (with_category name v r)) with (flags r).
  change (flags (with_category name v' r)) with (flags r).
  f_equal. f_equal. f_equal.
  cbn [Training.categorical_features] in Hname.
  destruct (Training.encoder_categories fit) as [|c0 [|c1 [|c2 [|c3 rest]]]].
  all: repeat (apply elem_of_cons in Hname as [->|Hname];
            [cbn in Hv, Hv';
             unfold categorical, with_category;
             cbn [model_key fuel paint_color car_type];
             decide_names; cbn [map zip_with fst snd];
             rewrite ?(onehot_unseen _ _ Hv), ?(onehot_unseen _ _ Hv');
             reflexivity|]).
  all: inversion Hname.
Qed.

Lemma map_insert_same {A B} (f : A -> B) (l : list A) (i : nat) (a b : A) :
  f a = f b -> map f (<[ i := a ]> l) = map f (<[ i := b ]> l).
Proof.
  intros H. revert i. induction l as [|x l IH]; intros i; [reflexivity|].
  destruct i as [|i].
  - change (<[0%nat:=a]> (x :: l)) with (a :: l).
    change (<[0%nat:=b]> (x :: l)) with (b :: l). cbn. now rewrite H.
  - change (<[S i:=a]> (x :: l)) with (x :: <[i:=a]> l).
    change (<[S i:=b]> (x :: l)) with (x :: <[i:=b]> l). cbn. now rewrite IH.
Qed.

Lemma forallb_as_map {A} (p : A -> bool) (l : list A) :
  forallb p l = forallb (fun b => b) (map p l).
Proof. induction l as [|a l IH]; cbn; [reflexivity|now rewrite IH]. Qed.

(** Two requests that differ only in the value of a categorical field of
    one record, both values being unseen in training, get the same answer
    from a pipeline of the training script: every unseen category counts
    as none of the known ones. *)
Theorem unseen_categories_alike (fit : Training.Fitted) (s : process)
    (payload payload' : pyval) (rs : list CarFeatures) (i : nat)
    (r : CarFeatures) (name v v' : string) :
  model s = Training.pipeline fit ->
  name ∈ Training.categorical_features ->
  v ∉ vocabulary fit name -> v' ∉ vocabulary fit name ->
  rs !! i = Some r ->
  InputData_validate payload
  = Valid {| input := <[ i := with_category name v r ]> rs |} ->
  InputData_validate payload'
  = Valid {| input := <[ i := with_category name v' r ]> rs |} ->
  fst (post_predict payload s) = fst (post_predict payload' s).
Proof.
  intros Hm Hname Hv Hv' Hi Hp Hp'.
  assert (forall x : CarFeatures, <[ i := x ]> rs <> []) as Hne.
  { intros x E. apply (f_equal length) in E. rewrite length_insert in E.
    destruct rs; [discriminate Hi|discriminate E]. }
  rewrite (post_predict_Valid fit s _ _ Hm Hp) by apply Hne.
  rewrite (post_predict_Valid fit s _ _ Hm Hp') by apply Hne.
  cbn [fst input].
  pose proof (encoded_unseen fit name v v' r Hname Hv Hv') as He.
  assert (price fit (with_category name v r)
          = price fit (with_category name v' r)) as Hprice.
  { unfold price. now rewrite He. }
  assert (scored fit (with_category name v r)
          = scored fit (with_category name v' r)) as Hscored.
  { unfold scored, accepted. rewrite Hprice, He. reflexivity. }
  rewrite (forallb_as_map (scored fit) (<[ i := with_category name v r ]> rs)).
  rewrite (forallb_as_map (scored fit) (<[ i := with_category name v' r ]> rs)).
  rewrite (map_insert_same (scored fit) rs i _ _ Hscored).
  rewrite (map_insert_same (price fit) rs i _ _ Hprice).
  reflexivity.
Qed.

Lemma unseen_categories_alike_witness :
  fst (post_predict
         (Sample.payload [PDict (<[ "fuel" := PStr "hydrogen" ]> Sample.car)])
         Sample.started)
  = fst (post_predict
           (Sample.payload [PDict (<[ "fuel" := PStr "steam" ]> Sample.car)])
           Sample.started).
Proof.
  eapply (unseen_categories_alike Sample.fit Sample.started _ _
            [ {| mileage := F64.of_Z 7;
                 engine_power := F64.of_decimal false 27 (-2);
                 model_key := "Citroën"; fuel := "diesel";
                 paint_color := "black"; car_type := "sedan";
                 private_parking_available := true; has_gps := true;
                 has_air_conditioning := false; automatic_car := false;
                 has_getaround_connect := true; has_speed_regulator := false;
                 winter_tires := true |} ]
            0 _ "fuel" "hydrogen" "steam").
  - reflexivity.
  - apply list_elem_of_further, list_elem_of_here.
  - intros H. vm_compute in H.
    repeat (apply elem_of_cons in H as [H|H]; [discriminate|]). inversion H.
  - intros H. vm_compute in H.
    repeat (apply elem_of_cons in H as [H|H]; [discriminate|]). inversion H.
  - reflexivity.
  - vm_compute. reflexivity.
  - vm_compute. reflexivity.
Defined.

(** ** The features of the training script *)

Lemma map_fst_astype (name : string) (d : dtype) (t : Training.schema) :
  map fst (Training.astype name d t) = map fst t.
Proof.
  unfold Training.astype. rewrite map_map. apply map_ext.
  intros [c d']. cbn. now destruct (String.eqb c name).
Qed.

Lemma map_fst_drop_columns (names : list string) (t : Training.schema) :
  map fst (Training.drop_columns names t)
  = filter (fun c => negb (mem c names)) (map fst t).
Proof.
  unfold Training.drop_columns.
  induction t as [|[c d] t IH]; [reflexivity|].
  cbn [map fst]. destruct (negb (mem c names)) eqn:E.
  - rewrite (filter_cons_True (fun c => negb (mem c names)) c)
      by (now rewrite E).
    rewrite (filter_cons_True
               (fun c0 : string * dtype => negb (mem (fst c0) names)) (c, d))
      by (cbn [fst]; now rewrite E).
    cbn [map fst]. f_equal. exact IH.
  - rewrite (filter_cons_False (fun c => negb (mem c names)) c)
      by (now rewrite E).
    rewrite (filter_cons_False
               (fun c0 : string * dtype => negb (mem (fst c0) names)) (c, d))
      by (cbn [fst]; now rewrite E).
    exact IH.
Qed.

Lemma elem_of_astype (name : string) (d : dtype) (t : Training.schema)
    (c : string) (d' : dtype) :
  (c, d') ∈ Training.astype name d t
  <-> (c = name /\ d' = d /\ c ∈ map fst t)
      \/ (c <> name /\ (c, d') ∈ t).
Proof.
  unfold Training.astype. split.
  - intros H. apply list_elem_of_In, in_map_iff in H as ([c0 d0] & E & Hin).
    cbn in E.
    destruct (String.eqb_spec c0 name) as [->|Hne]; injection E as <- <-.
    + left. repeat split. apply list_elem_of_In, in_map_iff.
      now exists (name, d0).
    + right. split; [exact Hne|now apply list_elem_of_In].
  - intros [(-> & -> & Hin) | (Hne & Hin)].
    + apply list_elem_of_In, in_map_iff in Hin as ([c0 d0] & E & Hin).
      cbn in E. subst c0. apply list_elem_of_In, in_map_iff.
      exists (name, d0). cbn. now rewrite String.eqb_refl.
    + apply list_elem_of_In, in_map_iff.
      exists (c, d'). cbn. apply list_elem_of_In in Hin.
      split; [|exact Hin].
      destruct (String.eqb_spec c name); [contradiction|reflexivity].
Qed.

(** Whatever the table, when the script gets as far as its features: the
    target and the index column are not among them; they are the other
    columns of the table, in the order of the table; mileage and engine
    power are floats and every other column has the type it has in the
    table; neither numeric column is among the boolean features. *)
Theorem training_features (df X : Training.schema) :
  Script.features df = Some X ->
  (Training.TARGET ∉ map fst X)
  /\ ("Unnamed: 0" ∉ map fst X)
  /\ map fst X
     = filter (fun c => negb (mem c ["Unnamed: 0"; Training.TARGET]))
              (map fst df)
  /\ (forall c d, (c, d) ∈ X ->
        if mem c Training.numeric_features then d = float64 else (c, d) ∈ df)
  /\ (forall c, c ∈ Script.boolean_features X ->
                c ∉ Training.numeric_features).
Proof.
  unfold Script.features. cbv zeta.
  destruct (mem Training.TARGET _); [|discriminate].
  destruct (mem "mileage" _ && mem "engine_power" _); [|discriminate].
  intros H. injection H as <-.
  assert (map fst (Training.astype "engine_power" float64
                     (Training.astype "mileage" float64
                        (Training.drop_columns [Training.TARGET]
                           (Training.drop_columns ["Unnamed: 0"] df))))
          = filter (fun c => negb (mem c ["Unnamed: 0"; Training.TARGET]))
                   (map fst df)) as Hcols.
  { rewrite !map_fst_astype, !map_fst_drop_columns.
    induction (map fst df) as [|c l IH]; [reflexivity|].
    destruct (String.eqb c "Unnamed: 0") eqn:E0.
    { rewrite !(filter_cons_False _ c)
        by (unfold mem; cbn [existsb]; now rewrite E0).
      exact IH. }
    rewrite (filter_cons_True (fun c => negb (mem c ["Unnamed: 0"])) c)
      by (unfold mem; cbn [existsb]; now rewrite E0).
    destruct (String.eqb c Training.TARGET) eqn:E1.
    { rewrite !(filter_cons_False _ c)
        by (unfold mem; cbn [existsb]; now rewrite ?E0, ?E1).
      exact IH. }
    rewrite !(filter_cons_True _ c)
      by (unfold mem; cbn [existsb]; now rewrite ?E0, ?E1).
    now rewrite IH. }
  assert (forall c, c ∈ filter (fun c => negb (mem c ["Unnamed: 0"; Training.TARGET]))
                                (map fst df) ->
                    c <> "Unnamed: 0" /\ c <> Training.TARGET) as Hout.
  { intros c Hc. apply list_elem_of_filter in Hc as [Hc _].
    unfold mem in Hc. cbn [existsb] in Hc.
    destruct (String.eqb_spec c "Unnamed: 0"); [contradiction|].
    destruct (String.eqb_spec c Training.TARGET); [contradiction|].
    now split. }
  split; [|split; [|split; [exact Hcols|split]]].
  - rewrite Hcols. intros Hc. now apply Hout in Hc as [_ Hc].
  - rewrite Hcols. intros Hc. now apply Hout in Hc as [Hc _].
  - intros c d Hc.
    apply elem_of_astype in Hc as [(-> & -> & _) | (Hne & Hc)];
      [reflexivity|].
    apply elem_of_astype in Hc as [(-> & -> & _) | (Hne' & Hc)];
      [reflexivity|].
    unfold mem, Training.numeric_features. cbn [existsb].
    destruct (String.eqb_spec c "mileage"); [contradiction|].
    destruct (String.eqb_spec c "engine_power"); [contradiction|].
    cbn. unfold Training.drop_columns in Hc.
    apply list_elem_of_filter in Hc as [_ Hc].
    now apply list_elem_of_filter in Hc as [_ Hc].
  - intros c Hc Hnum. unfold Script.boolean_features in Hc.
    apply list_elem_of_In, in_map_iff in Hc as ([c0 d0] & E & Hc).
    cbn in E. subst c0. apply list_elem_of_In in Hc.
    unfold Training.select_dtypes in Hc.
    apply list_elem_of_filter in Hc as [Hb Hc]. cbn in Hb.
    unfold Training.numeric_features in Hnum.
    apply elem_of_cons in Hnum as [-> | Hnum];
      [|apply list_elem_of_singleton in Hnum as ->].
    + apply elem_of_astype in Hc as [(E & _ & _) | (_ & Hc)];
        [discriminate E|].
      apply elem_of_astype in Hc as [(_ & -> & _) | (Hne & _)];
        [exact Hb|congruence].
    + apply elem_of_astype in Hc as [(_ & -> & _) | (Hne & _)];
        [exact Hb|congruence].
Qed.

Lemma training_features_witness :
  let df := [ ("Unnamed: 0", int64); ("model_key", object);
              ("mileage", int64); ("engine_power", int64);
              ("has_gps", bool_); (Training.TARGET, int64) ] in
  let X := [ ("model_key", object); ("mileage", float64);
             ("engine_power", float64); ("has_gps", bool_) ] in
  Script.features df = Some X
  /\ (Training.TARGET ∉ map fst X)
  /\ Script.boolean_features X = ["has_gps"].
Proof.
  intros df X.
  assert (Script.features df = Some X) as H by (vm_compute; reflexivity).
  split; [exact H|]. split; [|reflexivity].
  apply (training_features df X H).
Defined.

(** ** The frame and the table of the training script *)

Lemma features_dtype (t X : Training.schema) (c : string) (d : dtype) :
  Script.features t = Some X ->
  (c, d) ∈ X ->
  if mem c Training.numeric_features then d = float64 else (c, d) ∈ t.
Proof.
  unfold Script.features. cbv zeta.
  destruct (mem Training.TARGET _); [|discriminate].
  destruct (mem "mileage" _ && mem "engine_power" _); [|discriminate].
  intros H. injection H as <-. intros Hc.
  unfold mem, Training.numeric_features. cbn [existsb].
  apply elem_of_astype in Hc as [(-> & -> & _) | (Hne & Hc)];
    [reflexivity|].
  apply elem_of_astype in Hc as [(-> & -> & _) | (Hne' & Hc)];
    [reflexivity|].
  destruct (String.eqb_spec c "mileage"); [contradiction|].
  destruct (String.eqb_spec c "engine_power"); [contradiction|].
  cbn. unfold Training.drop_columns in Hc.
  apply list_elem_of_filter in Hc as [_ Hc].
  now apply list_elem_of_filter in Hc as [_ Hc].
Qed.

Lemma typed_by (f : string -> dtype) (X : Training.schema) :
  (forall c d, (c, d) ∈ X -> d = f c) ->
  X = map (fun c => (c, f c)) (map fst X).
Proof.
  induction X as [|[c d] X IH]; intros H; [reflexivity|].
  cbn [map fst]. rewrite <- IH.
  - now rewrite <- (H c d) by apply list_elem_of_here.
  - intros c' d' H'. apply H. now apply list_elem_of_further.
Qed.

(** C6, as amended.  The frame built from one or more validated records
    has one row per record, in the order of the records, holding the
    thirteen values of the record; its columns are the thirteen fields in
    the order of their declaration, the two numbers as floats, the four
    categories as strings and the seven flags as booleans.  Whatever the
    table of the training script, as long as its features are the
    thirteen fields, with strings under the categories and booleans
    under the flags: the frame has the labels and the types of the
    features, and their order exactly when the table has them in the
    order of the declaration. *)
Theorem frame_matches_training_table (records : list CarFeatures)
    (t X : Training.schema) :
  records <> [] ->
  Script.features t = Some X ->
  Permutation (map fst X) (map fst CarFeatures_fields) ->
  (forall c d, (c, d) ∈ t -> (c, a_string) ∈ CarFeatures_fields ->
               d = object) ->
  (forall c d, (c, d) ∈ t -> (c, a_bool) ∈ CarFeatures_fields ->
               d = bool_) ->
  let df := DataFrame_from_records (map CarFeatures_dict records) in
  values df
  = map (fun r =>
           [ VFloat (mileage r); VFloat (engine_power r);
             VStr (model_key r); VStr (fuel r); VStr (paint_color r);
             VStr (car_type r);
             VBool (private_parking_available r); VBool (has_gps r);
             VBool (has_air_conditioning r); VBool (automatic_car r);
             VBool (has_getaround_connect r); VBool (has_speed_regulator r);
             VBool (winter_tires r) ]) records
  /\ length (values df) = length records
  /\ columns df = map fst CarFeatures_fields
  /\ dtypes df
     = [ ("mileage", float64); ("engine_power", float64);
         ("model_key", object); ("fuel", object); ("paint_color", object);
         ("car_type", object);
         ("private_parking_available", bool_); ("has_gps", bool_);
         ("has_air_conditioning", bool_); ("automatic_car", bool_);
         ("has_getaround_connect", bool_); ("has_speed_regulator", bool_);
         ("winter_tires", bool_) ]
  /\ Permutation (dtypes df) X
  /\ (dtypes df = X <-> map fst X = columns df).
Proof.
  intros Hne Hf Hperm Hstr Hbool df. subst df. fold (frame records).
  assert (dtypes (frame records)
          = [ ("mileage", float64); ("engine_power", float64);
              ("model_key", object); ("fuel", object);
              ("paint_color", object); ("car_type", object);
              ("private_parking_available", bool_); ("has_gps", bool_);
              ("has_air_conditioning", bool_); ("automatic_car", bool_);
              ("has_getaround_connect", bool_);
              ("has_speed_regulator", bool_); ("winter_tires", bool_) ])
    as Hd.
  { unfold dtypes. rewrite frame_columns by assumption.
    cbn [labels CarFeatures_fields map fst imap]. unfold compose.
    rewrite !column_frame.
    rewrite !infer_dtype_floats by (assumption || (intros; reflexivity)).
    rewrite !infer_dtype_strings by (assumption || (intros; reflexivity)).
    rewrite !infer_dtype_bools by (assumption || (intros; reflexivity)).
    reflexivity. }
  set (ty := fun c : string =>
               if mem c Training.numeric_features then float64
               else if mem c Training.categorical_features then object
               else bool_).
  assert (X = map (fun c => (c, ty c)) (map fst X)) as HX.
  { apply typed_by. intros c d Hcd.
    pose proof (features_dtype t X c d Hf Hcd) as Hin.
    assert (c ∈ map fst CarFeatures_fields) as Hc.
    { rewrite <- Hperm. apply list_elem_of_In, in_map_iff.
      exists (c, d). split; [reflexivity|now apply list_elem_of_In]. }
    cbn [map fst CarFeatures_fields] in Hc.
    repeat (apply elem_of_cons in Hc as [-> | Hc];
            [first
               [ exact Hin
               | rewrite (Hstr _ _ Hin)
                   by (repeat first [apply list_elem_of_here
                                    |apply list_elem_of_further]);
                 reflexivity
               | rewrite (Hbool _ _ Hin)
                   by (repeat first [apply list_elem_of_here
                                    |apply list_elem_of_further]);
                 reflexivity ]|]).
    inversion Hc. }
  split; [now rewrite frame_values|].
  split; [now rewrite frame_values, length_map|].
  split; [now apply frame_columns|].
  split; [exact Hd|].
  assert (dtypes (frame records)
          = map (fun c => (c, ty c)) (map fst CarFeatures_fields)) as Hd'
    by (rewrite Hd; reflexivity).
  split.
  - rewrite Hd', HX. apply Permutation_map. now symmetry.
  - rewrite frame_columns by assumption. unfold labels. split.
    + intros E. rewrite <- E, Hd. reflexivity.
    + intros E. rewrite Hd', HX, E. reflexivity.
Qed.

Lemma frame_matches_training_table_witness :
  let records :=
    [ {| mileage := F64.of_Z 7;
         engine_power := F64.of_decimal false 27 (-2);
         model_key := "Citroën"; fuel := "diesel";
         paint_color := "black"; car_type := "sedan";
         private_parking_available := true; has_gps := true;
         has_air_conditioning := false; automatic_car := false;
         has_getaround_connect := true; has_speed_regulator := false;
         winter_tires := true |} ] in
  let t :=
    [ ("Unnamed: 0", int64); ("model_key", object); ("mileage", int64);
      ("engine_power", int64); ("fuel", object); ("paint_color", object);
      ("car_type", object); ("private_parking_available", bool_);
      ("has_gps", bool_); ("has_air_conditioning", bool_);
      ("automatic_car", bool_); ("has_getaround_connect", bool_);
      ("has_speed_regulator", bool_); ("winter_tires", bool_);
      ("rental_price_per_day", int64) ] in
  let X :=
    [ ("model_key", object); ("mileage", float64);
      ("engine_power", float64); ("fuel", object); ("paint_color", object);
      ("car_type", object); ("private_parking_available", bool_);
      ("has_gps", bool_); ("has_air_conditioning", bool_);
      ("automatic_car", bool_); ("has_getaround_connect", bool_);
      ("has_speed_regulator", bool_); ("winter_tires", bool_) ] in
  Script.features t = Some X
  /\ Permutation
       (dtypes (DataFrame_from_records (map CarFeatures_dict records))) X.
Proof.
  intros records t X.
  assert (Script.features t = Some X) as Hf by (vm_compute; reflexivity).
  split; [exact Hf|].
  apply (frame_matches_training_table records t X);
    [discriminate|exact Hf| | |].
  - cbn [map fst CarFeatures_fields X].
    apply (Permutation_trans (perm_swap _ _ _)).
    apply perm_skip. apply perm_swap.
  - intros c d Hcd Hc. unfold t in Hcd.
    repeat (apply elem_of_cons in Hc as [Hc|Hc];
            [first
               [ discriminate Hc
               | injection Hc as ->;
                 repeat (apply elem_of_cons in Hcd as [Hcd|Hcd];
                         [first [discriminate Hcd
                                |now injection Hcd as ->]|]);
                 inversion Hcd ]|]).
    inversion Hc.
  - intros c d Hcd Hc. unfold t in Hcd.
    repeat (apply elem_of_cons in Hc as [Hc|Hc];
            [first
               [ discriminate Hc
               | injection Hc as ->;
                 repeat (apply elem_of_cons in Hcd as [Hcd|Hcd];
                         [first [discriminate Hcd
                                |now injection Hcd as ->]|]);
                 inversion Hcd ]|]).
    inversion Hc.
Defined.

(** C6 fails as stated: on a table that lists the model before the
    mileage, as nothing in the script forbids, the features of the
    training script have the labels of the frame but not their order. *)
Lemma frame_order_differs_from_table :
  let records :=
    [ {| mileage := F64.of_Z 7;
         engine_power := F64.of_decimal false 27 (-2);
         model_key := "Citroën"; fuel := "diesel";
         paint_color := "black"; car_type := "sedan";
         private_parking_available := true; has_gps := true;
         has_air_conditioning := false; automatic_car := false;
         has_getaround_connect := true; has_speed_regulator := false;
         winter_tires := true |} ] in
  let t :=
    [ ("Unnamed: 0", int64); ("model_key", object); ("mileage", int64);
      ("engine_power", int64); ("fuel", object); ("paint_color", object);
      ("car_type", object); ("private_parking_available", bool_);
      ("has_gps", bool_); ("has_air_conditioning", bool_);
      ("automatic_car", bool_); ("has_getaround_connect", bool_);
      ("has_speed_regulator", bool_); ("winter_tires", bool_);
      ("rental_price_per_day", int64) ] in
  let df := DataFrame_from_records (map CarFeatures_dict records) in
  exists X,
    Script.features t = Some X
    /\ length X = 13%nat
    /\ columns df <> map fst X
    /\ dtypes df <> X
    /\ nth 0 (columns df) "" = "mileage"
    /\ nth 0 (map fst X) "" = "model_key".
Proof.
  cbv zeta. eexists. split; [vm_compute; reflexivity|].
  split; [reflexivity|].
  split; [vm_compute; discriminate|].
  split; [vm_compute; discriminate|].
  split; reflexivity.
Qed.


(** ** The figures of the delay analysis *)

Lemma filter_sublist {A} (f : A -> bool) (l : list A) :
  sublist (List.filter f l) l.
Proof.
  induction l as [|x l IH]; cbn; [constructor|].
  destruct (f x); now constructor.
Qed.

Lemma filter_sublist_mono {A} (f : A -> bool) (l1 l2 : list A) :
  sublist l1 l2 -> sublist (List.filter f l1) (List.filter f l2).
Proof.
  induction 1 as [|x l1 l2 _ IH|x l1 l2 _ IH]; cbn.
  - constructor.
  - destruct (f x); [now constructor|exact IH].
  - destruct (f x); [now constructor|exact IH].
Qed.

Lemma filter_sublist_impl {A} (f g : A -> bool) (l : list A) :
  (forall x, f x = true -> g x = true) ->
  sublist (List.filter f l) (List.filter g l).
Proof.
  intros Hfg. induction l as [|x l IH]; cbn; [constructor|].
  destruct (f x) eqn:Ef.
  - rewrite (Hfg x Ef). now constructor.
  - destruct (g x); [now constructor|exact IH].
Qed.

Lemma scoped_sublist (scope : string) (df : list Delays.rental) :
  sublist (Delays.scoped scope df) df.
Proof.
  unfold Delays.scoped. destruct (String.eqb scope "Connect only");
    [apply filter_sublist|reflexivity].
Qed.

(** Whatever the table, the filter and the threshold, the figures of the
    tab are nested: the resolved cases are late returns, the late returns
    that affect the next rental are late returns and blocked rentals, the
    rows offered for download are late returns, and the late returns and
    the blocked rentals are rentals of the table in scope. *)
Theorem delay_figures_nested (scope : string) (threshold : Z)
    (df : list Delays.rental) :
  let k := Delays.tab1 scope threshold df in
  (Delays.resolved k <= Delays.total_late_returns k)%nat
  /\ (Delays.late_returns_affecting_next k
      <= Delays.total_late_returns k)%nat
  /\ (Delays.late_returns_affecting_next k <= Delays.rentals_blocked k)%nat
  /\ (Delays.downloaded k <= Delays.total_late_returns k)%nat
  /\ (Delays.total_late_returns k <= Delays.total_rentals k)%nat
  /\ (Delays.rentals_blocked k <= Delays.total_rentals k)%nat
  /\ (Delays.total_rentals k <= length df)%nat.
Proof.
  cbn. repeat split; apply sublist_length.
  - apply filter_sublist.
  - apply filter_sublist.
  - apply filter_sublist_mono, filter_sublist.
  - apply filter_sublist_impl. intros r H.
    now apply andb_prop in H as [H _].
  - apply filter_sublist.
  - apply filter_sublist.
  - apply scoped_sublist.
Qed.

(** Raising the threshold of the side bar never raises the number of
    resolved cases and never lowers the number of blocked rentals or of
    late returns affecting the next rental; the late returns and the
    rentals in scope do not depend on it.  A case counts as resolved when
    its delay is above the threshold: at threshold zero, the lowest the
    slider gives, every late return is one. *)
Theorem delay_threshold_monotone (scope : string) (t1 t2 : Z)
    (df : list Delays.rental) :
  (t1 <= t2)%Z ->
  let k1 := Delays.tab1 scope t1 df in
  let k2 := Delays.tab1 scope t2 df in
  (Delays.resolved k2 <= Delays.resolved k1)%nat
  /\ (Delays.rentals_blocked k1 <= Delays.rentals_blocked k2)%nat
  /\ (Delays.late_returns_affecting_next k1
      <= Delays.late_returns_affecting_next k2)%nat
  /\ Delays.total_late_returns k1 = Delays.total_late_returns k2
  /\ Delays.total_rentals k1 = Delays.total_rentals k2
  /\ ((t1 <= 0)%Z -> Delays.resolved k1 = Delays.total_late_returns k1).
Proof.
  intros Ht. cbn. repeat split.
  - apply sublist_length, filter_sublist_impl. intros r H.
    apply Z.ltb_lt in H. apply Z.ltb_lt. lia.
  - apply sublist_length, filter_sublist_impl. intros r H.
    apply Z.ltb_lt in H. apply Z.ltb_lt. lia.
  - apply sublist_length, filter_sublist_impl. intros r H.
    apply Z.ltb_lt in H. apply Z.ltb_lt. lia.
  - intros H0. f_equal. unfold Delays.resolved_cases, Delays.late_returns.
    induction (Delays.scoped scope df) as [|r l IH]; [reflexivity|].
    cbn [List.filter].
    destruct (0 <? Delays.delay_at_checkout_in_minutes r)%Z eqn:E;
      [|exact IH].
    cbn [List.filter].
    replace (t1 <? Delays.delay_at_checkout_in_minutes r)%Z with true
      by (symmetry; apply Z.ltb_lt; apply Z.ltb_lt in E; lia).
    now rewrite IH.
Qed.

Lemma delay_threshold_monotone_witness :
  let df := [ Delays.Build_rental (VStr "mobile") 45 30;
              Delays.Build_rental (VStr "connect") 200 90;
              Delays.Build_rental (VStr "connect") (-10) 600 ] in
  Delays.resolved (Delays.tab1 "All" 0 df) = 2%nat
  /\ Delays.resolved (Delays.tab1 "All" 60 df) = 1%nat
  /\ (Delays.rentals_blocked (Delays.tab1 "All" 0 df)
      <= Delays.rentals_blocked (Delays.tab1 "All" 60 df))%nat.
Proof.
  intros df. split; [reflexivity|]. split; [reflexivity|].
  apply (delay_threshold_monotone "All" 0 60 df). lia.
Defined.

(** The filter on the check-in type only takes rows away: under
    "Connect only" no count of the tab is above what it is under "All",
    and the rows counted are connect rentals. *)
Theorem connect_only_narrows (threshold : Z) (df : list Delays.rental) :
  let k := Delays.tab1 "All" threshold df in
  let c := Delays.tab1 "Connect only" threshold df in
  (Delays.total_rentals c <= Delays.total_rentals k)%nat
  /\ (Delays.total_late_returns c <= Delays.total_late_returns k)%nat
  /\ (Delays.resolved c <= Delays.resolved k)%nat
  /\ (Delays.rentals_blocked c <= Delays.rentals_blocked k)%nat
  /\ (Delays.late_returns_affecting_next c
      <= Delays.late_returns_affecting_next k)%nat
  /\ (Delays.downloaded c <= Delays.downloaded k)%nat
  /\ (forall r, In r (Delays.scoped "Connect only" df) ->
        Delays.checkin_type r = VStr "connect").
Proof.
  cbn.
  assert (sublist (Delays.scoped "Connect only" df)
                  (Delays.scoped "All" df)) as Hs
    by apply filter_sublist.
  repeat split; try apply sublist_length.
  - exact Hs.
  - now apply filter_sublist_mono.
  - now do 2 apply filter_sublist_mono.
  - now apply filter_sublist_mono.
  - now do 2 apply filter_sublist_mono.
  - now apply filter_sublist_mono.
  - intros r Hr. apply filter_In in Hr as [_ Hr].
    unfold Delays.connect in Hr.
    destruct (Delays.checkin_type r) as [| s |]; try discriminate.
    now apply String.eqb_eq in Hr as ->.
Qed.
